(** * RAG-Project: the document loader, the index builder and the shell

    A shallow embedding of [pysrc/document_processor.py],
    [pysrc/embeddings_manager.py] and [stmain.py].

    The program is glue around external services: the langchain text
    splitter, the sentence-embedding model, the Chroma vector store, the
    language model and the file system.  Their answers are not computed
    here: they are the fields of a [World], and every definition below
    that calls one of them takes the world as an argument.  Python
    exceptions are values of [outcome]; logging and file opening are
    recorded in a trace of [effect]s. *)

From Stdlib Require Import Ascii String QArith DecimalString.
From stdpp Require Import base option list sorting strings gmap.

Local Open Scope string_scope.
Local Open Scope list_scope.
Local Open Scope nat_scope.

(** ** Python values *)

Module Py.

(** Exceptions.  The program itself raises only [ValueError]; every
    other class (OSError, UnicodeDecodeError, ...) comes from a library
    call and is kept with its class name. *)
Inductive exn : Type :=
| ValueError (msg : string)
| Exception (cls msg : string).

(** [str(e)] *)
Definition str (e : exn) : string :=
  match e with
  | ValueError msg => msg
  | Exception _ msg => msg
  end.

(** The result of a call that may raise. *)
Inductive outcome (A : Type) : Type :=
| Returned (a : A)
| Raised (e : exn).
Arguments Returned {A} a.
Arguments Raised {A} e.

Definition bind {A B} (c : outcome A) (k : A → outcome B) : outcome B :=
  match c with
  | Returned a => k a
  | Raised e => Raised e
  end.

(** [[f(x) for x in xs]] with a call that may raise: the first
    exception ends the comprehension. *)
Fixpoint for_each {A B} (f : A → outcome B) (xs : list A) : outcome (list B) :=
  match xs with
  | [] => Returned []
  | x :: xs' =>
      bind (f x) (λ y, bind (for_each f xs') (λ ys, Returned (y :: ys)))
  end.

(** [str.isspace] on one character, a code point below 256. *)
Definition isspace (c : ascii) : bool :=
  let n := nat_of_ascii c in
  ((9 <=? n) && (n <=? 13)) || ((28 <=? n) && (n <=? 32))
  || (n =? 133) || (n =? 160).

Fixpoint lstrip (s : string) : string :=
  match s with
  | String c s' => if isspace c then lstrip s' else s
  | EmptyString => EmptyString
  end.

Definition rstrip (s : string) : string := String.rev (lstrip (String.rev s)).

(** [s.strip()] *)
Definition strip (s : string) : string := rstrip (lstrip s).

(** Truth value of a string: [bool(s)]. *)
Definition truthy (s : string) : bool := negb (String.eqb s "").

(** [s.startswith(p)] *)
Definition startswith (s p : string) : bool := String.prefix p s.

(** [s.endswith(p)] *)
Definition endswith (s p : string) : bool :=
  (String.length p <=? String.length s)
  && String.eqb (substring (String.length s - String.length p) (String.length p) s) p.

(** [str(n)] for a non-negative integer. *)
Definition str_of_nat (n : nat) : string := NilEmpty.string_of_uint (Nat.to_uint n).

(** [os.path.join(a, b)] (posixpath). *)
Definition os_path_join (a b : string) : string :=
  if startswith b "/" then b
  else if negb (truthy a) || endswith a "/" then a +:+ b
  else a +:+ "/" +:+ b.

End Py.
Import Py.

#[global] Instance outcome_ret : MRet outcome := @Returned.
#[global] Instance outcome_bind : MBind outcome := λ A B k c, Py.bind c k.

(** ** External data and services *)

(** [logging] levels used by the program. *)
Inductive level : Type := INFO | WARNING | ERROR.

(** The calls of [stmain.py] that show something to the user.  Layout
    calls (tabs, columns, headers, the progress bar) and the labels of
    [status.update] are left out. *)
Inductive st_call : Type :=
| chat_message (role text : string)
| st_error (msg : string)
| st_warning (msg : string)
| st_success (msg : string)
| status_update (state : string)
| st_balloons
| st_rerun.

(** What a run does to the outside: a logger call, opening a file for
    reading, or a call to the user interface. *)
Inductive effect : Type :=
| Log (lvl : level) (msg : string)
| Open (path : string)
| St (call : st_call).

(** ** Programs

    A block of Python statements over a mutable state [S]: it leaves a
    trace and a state, and returns or raises. *)
Definition prog (S A : Type) : Type := S → list effect * S * outcome A.

#[global] Instance prog_ret {S} : MRet (prog S) := λ A a s, ([], s, Returned a).

#[global] Instance prog_bind {S} : MBind (prog S) := λ A B k c s,
  let '(t1, s1, r1) := c s in
  match r1 with
  | Returned a => let '(t2, s2, r2) := k a s1 in (t1 ++ t2, s2, r2)
  | Raised e => (t1, s1, Raised e)
  end.

(** A call that touches neither the state nor the trace. *)
Definition call {S A} (r : outcome A) : prog S A := λ s, ([], s, r).

(** A call that comes with its own trace. *)
Definition traced {S A} (r : list effect * outcome A) : prog S A := λ s, (r.1, s, r.2).

Definition emit {S} (e : effect) : prog S unit := λ s, ([e], s, Returned ()).

Definition modify {S} (f : S → S) : prog S unit := λ s, ([], f s, Returned ()).

Definition gets {S A} (f : S → A) : prog S A := λ s, ([], s, Returned (f s)).

Definition raise {S A} (e : exn) : prog S A := λ s, ([], s, Raised e).

(** [try: c except Exception as e: h(e)] *)
Definition try_except {S A} (c : prog S A) (h : exn → prog S A) : prog S A := λ s,
  let '(t1, s1, r1) := c s in
  match r1 with
  | Returned a => (t1, s1, Returned a)
  | Raised e => let '(t2, s2, r2) := h e s1 in (t1 ++ t2, s2, r2)
  end.

(** [for x in xs: body(x)] *)
Fixpoint for_in {S A} (xs : list A) (body : A → prog S unit) : prog S unit :=
  match xs with
  | [] => mret ()
  | x :: xs' => _ ← body x; for_in xs' body
  end.

(** [langchain.schema.Document] *)
Record Document : Type := {
  page_content : string;
  metadata : gmap string string
}.

(** The arguments [DocumentProcessor.__init__] gives
    [RecursiveCharacterTextSplitter]. *)
Record RecursiveCharacterTextSplitter : Type := {
  chunk_size : nat;
  chunk_overlap : nat;
  length_function : string → nat;
  separators : list string
}.

(** What reading a file as UTF-8 text yields: [open(..).read()] returns
    the text or raises. *)
Inductive file_read : Type :=
| ReadOk (text : string)
| ReadFails (e : exn).

(** What a path names.  [Directory] lists the entries in [os.listdir]
    order, each with what reading it yields; [NotListable] is a path
    that exists and on which [os.listdir] raises. *)
Inductive node : Type :=
| Directory (entries : list (string * file_read))
| NotListable (e : exn).

(** A file system maps a path to what it names; [None]: the path does not
    exist. *)
Definition filesystem : Type := string → option node.

(** An embedding vector. *)
Definition EmbeddingVector : Type := list Q.

(** [SentenceTransformerEmbeddings(model_name=.., cache_folder=..)] *)
Record SentenceTransformerEmbeddings : Type := {
  model_name : string;
  cache_folder : string
}.

(** Modelled from the spec: the handle [Chroma.from_documents] returns,
    an object of a third-party client.  "A persistent collection mapping
    each Chunk (with its EmbeddingVector) to a retrievable record",
    persisted to a directory. *)
Record VectorStore : Type := {
  records : list (Document * EmbeddingVector);
  embedding_function : SentenceTransformerEmbeddings;
  store_directory : string
}.

(** The services the program calls and does not implement. *)
Record World : Type := {
  (** [RecursiveCharacterTextSplitter.split_documents] (langchain) *)
  split_documents : RecursiveCharacterTextSplitter → list Document → outcome (list Document);
  (** [Chroma.from_documents(documents=.., embedding=.., persist_directory=..)] *)
  from_documents : list Document → SentenceTransformerEmbeddings → string
                   → outcome VectorStore;
  (** the embedding model applied to one text *)
  embed_text : SentenceTransformerEmbeddings → string → outcome EmbeddingVector;
  (** similarity of two vectors, larger is closer *)
  similarity : EmbeddingVector → EmbeddingVector → Q;
  (** the prompt the query engine builds from the retrieved chunks and
      the question; the spec does not fix its text *)
  prompt : list Document → string → string;
  (** the language model: prompt and temperature to text *)
  llm : string → Q → outcome string;
  (** [os.makedirs(path, exist_ok=True)] *)
  makedirs : string → outcome unit;
  (** loading the pretrained sentence-embedding model into a cache folder *)
  load_model : string → string → outcome unit;
  (** [tempfile.mkdtemp()] *)
  mkdtemp : outcome string;
  (** writing an uploaded file's bytes to a path *)
  write_file : string → string → outcome unit;
  (** what reading back a file holding the given bytes as UTF-8 yields *)
  read_back : string → file_read
}.

(** ** pysrc/document_processor.py *)

Module document_processor.

Record DocumentProcessor : Type := {
  directory_path : string;
  text_splitter : RecursiveCharacterTextSplitter
}.

(** [DocumentProcessor.__init__] *)
Definition __init__ (directory_path : string) : DocumentProcessor :=
  {| directory_path := directory_path;
     text_splitter :=
       {| chunk_size := 1000;
          chunk_overlap := 200;
          length_function := String.length;
          separators := [String "010" (String "010" ""); String "010" "";
                         "."; "!"; "?"; ","; " "] |} |}.

(** [open(file_path, 'r', encoding='utf-8')] and [file.read()]. *)
Definition read {S} (file_path : string) (content : file_read) : prog S string :=
  _ ← emit (Open file_path);
  match content with
  | ReadOk text => mret text
  | ReadFails e => raise e
  end.

(** One iteration of [for filename in os.listdir(..)]; the state is the
    list [documents]. *)
Definition process_entry (W : World) (self : DocumentProcessor)
    (entry : string * file_read) : prog (list Document) unit :=
  let '(filename, content) := entry in
  if endswith filename ".txt" then
    let file_path := os_path_join (directory_path self) filename in
    _ ← emit (Log INFO ("Processing file: " +:+ file_path));
    try_except
      (text ← read file_path content;
       if truthy (strip text) then
         let doc := {| page_content := text;
                       metadata := {[ "source" := filename ]} |} in
         split_docs ← call (split_documents W (text_splitter self) [doc]);
         _ ← modify (λ documents, documents ++ split_docs);
         emit (Log INFO ("Successfully processed " +:+ filename))
       else emit (Log WARNING ("Empty file: " +:+ file_path)))
      (λ e, emit (Log ERROR ("Error processing file " +:+ file_path
                             +:+ ": " +:+ str e)))
  else mret ().

(** [os.listdir(path)], after [os.path.exists(path)] held. *)
Definition listdir (n : node) : outcome (list (string * file_read)) :=
  match n with
  | Directory entries => Returned entries
  | NotListable e => Raised e
  end.

(** The body of [load_and_split_documents], over the list [documents]. *)
Definition load_and_split_body (W : World) (fs : filesystem)
    (self : DocumentProcessor) : prog (list Document) (list Document) :=
  try_except
    (match fs (directory_path self) with
     | None => raise (ValueError ("Directory not found: " +:+ directory_path self))
     | Some n =>
         entries ← call (listdir n);
         _ ← for_in entries (process_entry W self);
         documents ← gets id;
         match documents with
         | [] => raise (ValueError "No valid documents found or all documents were empty")
         | _ :: _ =>
             _ ← emit (Log INFO ("Successfully processed "
                                 +:+ str_of_nat (length documents)
                                 +:+ " document chunks"));
             mret documents
         end
     end)
    (λ e, _ ← emit (Log ERROR ("Error in load_and_split_documents: " +:+ str e));
          raise e).

(** [DocumentProcessor.load_and_split_documents], started with
    [documents = []]. *)
Definition load_and_split_documents (W : World) (fs : filesystem)
    (self : DocumentProcessor) : list effect * outcome (list Document) :=
  let '(trace, _, result) := load_and_split_body W fs self [] in (trace, result).

End document_processor.

(** ** pysrc/embeddings_manager.py *)
(** ** pysrc/embeddings_manager.py *)

Module embeddings_manager.

Record EmbeddingsManager : Type := {
  persist_directory : string;
  embeddings : SentenceTransformerEmbeddings
}.

(** [EmbeddingsManager.__init__] *)
Definition __init__ (W : World) (persist_directory : string)
    : outcome EmbeddingsManager :=
  _ ← makedirs W persist_directory;
  let cache_folder := os_path_join persist_directory "models" in
  _ ← load_model W "all-MiniLM-L6-v2" cache_folder;
  mret {| persist_directory := persist_directory;
          embeddings := {| model_name := "all-MiniLM-L6-v2";
                           cache_folder := cache_folder |} |}.

(** [EmbeddingsManager.create_vector_store]; the method has no state of
    its own to change. *)
Definition create_vector_store (W : World) (self : EmbeddingsManager)
    (documents : list Document) : list effect * outcome VectorStore :=
  let '(trace, _, result) :=
    try_except
      (_ ← emit (Log INFO "Creating vector store...");
       _ ← match documents with
           | [] => raise (ValueError "No documents provided")
           | _ :: _ => mret ()
           end;
       vector_store ← call (from_documents W documents (embeddings self)
                              (persist_directory self));
       _ ← emit (Log INFO "Vector store created successfully");
       mret vector_store)
      (λ e, _ ← emit (Log ERROR ("Error creating vector store: " +:+ str e));
            raise e)
      () in
  (trace, result).

End embeddings_manager.

(** ** The vector store of the spec *)

Module chroma.

(** Modelled from the spec: what [Chroma.from_documents] is to do, given
    the embedding model as a function.  "Computes one embedding vector
    per chunk [...] Inserts all (chunk, vector) pairs into a vector
    store rooted at a configured persistence directory [...] Returns a
    handle to the populated store."  A failing embedding call is the
    spec's ExternalServiceError and ends the construction. *)
Definition from_documents
    (embed : SentenceTransformerEmbeddings → string → outcome EmbeddingVector)
    (documents : list Document) (embedding : SentenceTransformerEmbeddings)
    (persist_directory : string) : outcome VectorStore :=
  vectors ← for_each (embed embedding) (page_content <$> documents);
  mret {| records := zip documents vectors;
          embedding_function := embedding;
          store_directory := persist_directory |}.

(** A retrieved chunk with its similarity score. *)
Definition scored : Type := Document * Q.

(** [a] ranks before [b]: its score is at least as large. *)
Definition ranks_before (a b : scored) : Prop := (b.2 <= a.2)%Q.

#[global] Instance ranks_before_dec : RelDecision ranks_before.
Proof.
  intros a b. unfold ranks_before.
  destruct (Qle_bool b.2 a.2) eqn:E.
  - left. by apply Qle_bool_iff.
  - right. intros H. apply Qle_bool_iff in H. congruence.
Defined.

(** Every record of the store scored against the query vector. *)
Definition score_all (W : World) (q : EmbeddingVector) (store : VectorStore)
    : list scored :=
  (λ r : Document * EmbeddingVector, (r.1, similarity W q r.2)) <$> records store.

(** Modelled from the spec: the handle's "nearest-neighbor
    query(text, k) → ordered sequence of (Chunk, similarity score),
    most-similar first", the question embedded "with the same embedding
    model used at index time".  The store is passed back, as the call
    leaves it. *)
Definition query (W : World) (store : VectorStore) (text : string) (k : nat)
    : VectorStore * outcome (list scored) :=
  (store,
   q ← embed_text W (embedding_function store) text;
   mret (take k (merge_sort ranks_before (score_all W q store)))).

End chroma.

(** ** pysrc/rag_engine.py *)

(** What [stmain.py] uses of the class [RAGEngine] it imports from
    [pysrc/rag_engine.py]: the constructor and two methods.  A method
    returns the engine object as the call leaves it. *)
Class RAGEngineClass (E : Type) : Type := {
  (** [RAGEngine(vector_store)] *)
  RAGEngine_init : World → VectorStore → outcome E;
  (** [engine.answer_question(question)] *)
  answer_question : World → E → string → E * outcome string;
  (** [engine.update_settings(temperature=.., context_length=..)] *)
  update_settings : E → Q → nat → E
}.

Module rag_engine.

(** Modelled from the spec: the query engine [RAGEngine] of
    [pysrc/rag_engine.py], which is not among the source files.  It
    holds the store handle and the Settings, "temperature ∈ [0.0, 1.0]
    (default 0.7), context_length ∈ [1, 5] (default 3)". *)
Record RAGEngine : Type := {
  vector_store : VectorStore;
  temperature : Q;
  context_length : nat
}.

(** Modelled from the spec: [RAGEngine(vector_store)], with the default
    Settings. *)
Definition __init__ (vector_store : VectorStore) : RAGEngine :=
  {| vector_store := vector_store; temperature := 7 # 10; context_length := 3 |}.

(** Modelled from the spec: [RAGEngine.update_settings].  "Settings
    (temperature, k) are mutable at any time between queries [...]
    they do not trigger re-embedding or re-indexing." *)
Definition update_settings (self : RAGEngine) (temperature : Q) (context_length : nat)
    : RAGEngine :=
  {| vector_store := vector_store self;
     temperature := temperature;
     context_length := context_length |}.

(** The chunks handed to generation: the top [context_length] of the
    store for the question. *)
Definition retrieve (W : World) (self : RAGEngine) (question : string)
    : outcome (list Document) :=
  found ← (chroma.query W (vector_store self) question (context_length self)).2;
  mret (found.*1).

(** Modelled from the spec: [RAGEngine.answer_question].  "Embeds the
    question [...], queries the vector store for the top-k most similar
    chunks, and constructs a prompt combining the retrieved chunk texts
    (each tagged with its source) and the original question.  Sends
    this prompt to a language model with a configured temperature
    [...] and returns the model's text response verbatim. [...] if the
    store is empty or unset, fails with a NotInitialized error." *)
Definition answer_question (W : World) (self : RAGEngine) (question : string)
    : RAGEngine * outcome string :=
  (self,
   match records (vector_store self) with
   | [] => Raised (Exception "NotInitialized" "vector store is empty")
   | _ :: _ =>
       chunks ← retrieve W self question;
       llm W (prompt W chunks question) (temperature self)
   end).

(** The engine of the spec as the class [stmain.py] imports. *)
#[global] Instance engine : RAGEngineClass RAGEngine :=
  Build_RAGEngineClass RAGEngine
    (λ _ vector_store, Returned (__init__ vector_store))
    answer_question
    update_settings.

End rag_engine.

(** ** stmain.py *)

Module stmain.

(** An uploaded file: its name and its bytes. *)
Record UploadedFile : Type := {
  name : string;
  getvalue : string
}.

(** What the user did in one run of the script. *)
Inductive action : Type :=
| ChatInput (prompt : string)
| ProcessDocuments (uploaded_files : list UploadedFile)
| SaveSettings (temperature : Q) (context_length : nat)
| ClearChatHistory.

(** One write into the temporary directory: a file of that name is
    replaced, a new one is listed last. *)
Definition save_entry (entries : list (string * file_read))
    (filename : string) (content : file_read) : list (string * file_read) :=
  if decide (filename ∈ entries.*1)
  then (λ e : string * file_read,
          if decide (e.1 = filename) then (filename, content) else e) <$> entries
  else entries ++ [(filename, content)].

(** The file system the loader sees after the uploads were saved: the
    fresh directory [data_path] holds them and nothing else exists. *)
Definition uploaded_directory (W : World) (data_path : string)
    (files : list UploadedFile) : filesystem :=
  λ path,
    if decide (path = data_path)
    then Some (Directory
                 (foldl (λ entries f, save_entry entries (name f) (read_back W (getvalue f)))
                        [] files))
    else None.

Section shell.
Context {E : Type} `{!RAGEngineClass E}.

(** [st.session_state] after the three guards at the top of the script
    have run; [E] is the class of the engine. *)
Record session_state : Type := {
  rag_engine : option E;
  chat_history : list (gmap string string);
  doc_stats : gmap string nat
}.

(** The state the guards give a fresh session. *)
Definition initial_session_state : session_state :=
  {| rag_engine := None;
     chat_history := [];
     doc_stats := {[ "processed" := 0; "chunks" := 0 ]} |}.

Definition set_rag_engine (v : option E) (ss : session_state) : session_state :=
  {| rag_engine := v; chat_history := chat_history ss; doc_stats := doc_stats ss |}.

Definition set_chat_history (v : list (gmap string string)) (ss : session_state)
    : session_state :=
  {| rag_engine := rag_engine ss; chat_history := v; doc_stats := doc_stats ss |}.

(** [st.session_state.doc_stats[key] = v] *)
Definition set_doc_stat (key : string) (v : nat) (ss : session_state) : session_state :=
  {| rag_engine := rag_engine ss;
     chat_history := chat_history ss;
     doc_stats := <[ key := v ]> (doc_stats ss) |}.

(** [st.session_state.chat_history.append(turn)] *)
Definition append_chat (turn : gmap string string) (ss : session_state) : session_state :=
  set_chat_history (chat_history ss ++ [turn]) ss.

(** [process_files] *)
Definition process_files (W : World) (files : list UploadedFile)
    : prog session_state bool :=
  try_except
    (temp_dir ← call (mkdtemp W);
     let data_path := os_path_join temp_dir "data" in
     _ ← call (makedirs W data_path);
     _ ← call (for_each (λ uploaded_file,
                  write_file W (os_path_join data_path (name uploaded_file))
                             (getvalue uploaded_file)) files);
     let doc_processor := document_processor.__init__ data_path in
     embeddings_manager ← call (embeddings_manager.__init__ W "database");
     documents ← traced (document_processor.load_and_split_documents W
                           (uploaded_directory W data_path files) doc_processor);
     vector_store ← traced (embeddings_manager.create_vector_store W
                              embeddings_manager documents);
     engine ← call (RAGEngine_init W vector_store);
     _ ← modify (set_rag_engine (Some engine));
     _ ← modify (set_doc_stat "processed" (length files));
     _ ← modify (set_doc_stat "chunks" (length documents));
     mret true)
    (λ e, _ ← emit (Log ERROR ("Error processing files: " +:+ str e));
          raise e).

(** [st.session_state.rag_engine.answer_question(prompt)] on the engine
    object held by the session. *)
Definition ask (W : World) (question : string) : prog session_state string :=
  λ ss,
    match rag_engine ss with
    | Some engine =>
        let '(engine', r) := answer_question W engine question in
        ([], set_rag_engine (Some engine') ss, r)
    | None => ([], ss, Raised (Exception "AttributeError"
                 "'NoneType' object has no attribute 'answer_question'"))
    end.

(** The chat input handler: [if prompt := st.chat_input(..)]. *)
Definition on_chat_input (W : World) (prompt : string) : prog session_state unit :=
  if truthy prompt then
    engine ← gets rag_engine;
    match engine with
    | Some _ =>
        _ ← emit (St (chat_message "user" prompt));
        _ ← modify (append_chat {[ "role" := "user"; "content" := prompt ]});
        try_except
          (response ← ask W prompt;
           _ ← emit (St (chat_message "assistant" response));
           modify (append_chat {[ "role" := "assistant"; "content" := response ]}))
          (λ e, emit (St (st_error ("Error: " +:+ str e))))
    | None => emit (St (st_warning "Please upload documents first"))
    end
  else mret ().

(** The "Process Documents" button, shown when files are selected. *)
Definition on_process_documents (W : World) (uploaded_files : list UploadedFile)
    : prog session_state unit :=
  match uploaded_files with
  | [] => mret ()
  | _ :: _ =>
      try_except
        (success ← process_files W uploaded_files;
         if success : bool then
           _ ← emit (St (status_update "complete"));
           _ ← emit (St (st_success "Documents processed successfully!"));
           emit (St st_balloons)
         else mret ())
        (λ e, _ ← emit (St (status_update "error"));
              emit (St (st_error ("Error processing documents: " +:+ str e))))
  end.

(** The "Save Settings" button. *)
Definition on_save_settings (temperature : Q) (context_length : nat)
    : prog session_state unit :=
  engine ← gets rag_engine;
  match engine with
  | Some engine =>
      _ ← modify (set_rag_engine
                    (Some (update_settings engine temperature context_length)));
      emit (St (st_success "Settings updated!"))
  | None => mret ()
  end.

(** The "Clear Chat History" button. *)
Definition on_clear_chat_history : prog session_state unit :=
  _ ← modify (set_chat_history []);
  _ ← emit (St (st_success "Chat history cleared!"));
  emit (St st_rerun).

(** One run of the script. *)
Definition run (W : World) (a : action) : prog session_state unit :=
  match a with
  | ChatInput prompt => on_chat_input W prompt
  | ProcessDocuments uploaded_files => on_process_documents W uploaded_files
  | SaveSettings temperature context_length => on_save_settings temperature context_length
  | ClearChatHistory => on_clear_chat_history
  end.

End shell.

Arguments session_state E : clear implicits.
Arguments initial_session_state E : clear implicits.

(** [d[key]]: a missing key raises KeyError. *)
Definition getitem {V} (d : gmap string V) (key : string) : outcome V :=
  match d !! key with
  | Some v => Returned v
  | None => Raised (Exception "KeyError" ("'" +:+ key +:+ "'"))
  end.

Section rendering.
Context {E : Type} `{!RAGEngineClass E}.

(** The sidebar's document statistics: the metrics it shows, as label
    and value. *)
Definition sidebar_metrics (ss : session_state E) : outcome (list (string * nat)) :=
  processed ← getitem (doc_stats ss) "processed";
  if 0 <? processed then
    processed ← getitem (doc_stats ss) "processed";
    chunks ← getitem (doc_stats ss) "chunks";
    mret [("Documents Processed", processed); ("Text Chunks", chunks)]
  else mret [].

(** The chat tab's loop over [st.session_state.chat_history]. *)
Definition show_chat_history : prog (session_state E) unit :=
  history ← gets chat_history;
  for_in history (λ msg,
    role ← call (getitem msg "role");
    content ← call (getitem msg "content");
    emit (St (chat_message role content))).

(** The placeholder of the chat input. *)
Definition chat_placeholder (ss : session_state E) : string :=
  match rag_engine ss with
  | Some _ => "Ask a question..."
  | None => "Please upload documents first..."
  end.

(** The session after a series of runs of the script, one action each. *)
Definition run_all (W : World) (actions : list action) (ss : session_state E)
    : session_state E :=
  foldl (λ ss a, (run W a ss).1.2) ss actions.

End rendering.

End stmain.

(** ** Worlds to run the model on *)

Module worlds.

(** A text is embedded as its length. *)
Definition embed_length (_ : SentenceTransformerEmbeddings) (text : string)
    : outcome EmbeddingVector :=
  Returned [inject_Z (Z.of_nat (String.length text))].

(** An embedding service out of reach. *)
Definition embed_unreachable (_ : SentenceTransformerEmbeddings) (_ : string)
    : outcome EmbeddingVector :=
  Raised (Exception "ConnectionError" "embedding service unreachable").

(** Every service answers: the splitter returns each document as one
    chunk, the store is built as the spec says from the lengths of the
    texts, closer lengths are more similar, and the language model
    echoes its prompt. *)
Definition answering : World :=
  {| split_documents := λ _ docs, Returned docs;
     from_documents := chroma.from_documents embed_length;
     embed_text := embed_length;
     similarity := λ u v,
       match u, v with
       | [a], [b] => (- ((a - b) * (a - b)))%Q
       | _, _ => 0%Q
       end;
     prompt := λ chunks question,
       String.concat " " (page_content <$> chunks) +:+ " " +:+ question;
     llm := λ text _, Returned text;
     makedirs := λ _, Returned ();
     load_model := λ _ _, Returned ();
     mkdtemp := Returned "/tmp/tmpq1";
     write_file := λ _ _, Returned ();
     read_back := ReadOk |}.

(** As [answering], with the embedding service out of reach. *)
Definition embedding_down : World :=
  {| split_documents := split_documents answering;
     from_documents := chroma.from_documents embed_unreachable;
     embed_text := embed_unreachable;
     similarity := similarity answering;
     prompt := prompt answering;
     llm := llm answering;
     makedirs := makedirs answering;
     load_model := load_model answering;
     mkdtemp := mkdtemp answering;
     write_file := write_file answering;
     read_back := read_back answering |}.

(** As [answering], with the language model out of reach. *)
Definition llm_down : World :=
  {| split_documents := split_documents answering;
     from_documents := from_documents answering;
     embed_text := embed_text answering;
     similarity := similarity answering;
     prompt := prompt answering;
     llm := λ _ _, Raised (Exception "TimeoutError" "language model timed out");
     makedirs := makedirs answering;
     load_model := load_model answering;
     mkdtemp := mkdtemp answering;
     write_file := write_file answering;
     read_back := read_back answering |}.

Definition chunk (source text : string) : Document :=
  {| page_content := text; metadata := {[ "source" := source ]} |}.

Definition notes : stmain.UploadedFile :=
  {| stmain.name := "notes.txt";
     stmain.getvalue := "AI is great. ML is a subset of AI." |}.

End worlds.

(** ** Vocabulary of the properties *)

Import document_processor embeddings_manager stmain.

(** The error of a directory that yields no chunk. *)
Definition no_valid_documents : exn :=
  ValueError "No valid documents found or all documents were empty".

(** The error of a path that does not exist. *)
Definition directory_not_found (path : string) : exn :=
  ValueError ("Directory not found: " +:+ path).

(** The chunks one directory entry yields, read off the entry alone: what
    the splitter returns for a readable [.txt] file whose trimmed text is
    not empty, and nothing for any other entry. *)
Definition entry_chunks (W : World) (self : DocumentProcessor)
    (entry : string * file_read) : list Document :=
  if endswith entry.1 ".txt" then
    match entry.2 with
    | ReadOk text =>
        if truthy (strip text) then
          match split_documents W (text_splitter self)
                  [{| page_content := text; metadata := {[ "source" := entry.1 ]} |}] with
          | Returned split_docs => split_docs
          | Raised _ => []
          end
        else []
    | ReadFails _ => []
    end
  else [].

(** The chunks a directory yields: those of its entries, in listing order. *)
Definition directory_chunks (W : World) (self : DocumentProcessor)
    (entries : list (string * file_read)) : list Document :=
  entries ≫= entry_chunks W self.

(** An entry that cannot yield a chunk whatever the splitter does: not a
    [.txt] name, unreadable, or empty once trimmed. *)
Definition yields_nothing (entry : string * file_read) : Prop :=
  endswith entry.1 ".txt" = false
  ∨ (∃ e, entry.2 = ReadFails e)
  ∨ (∃ text, entry.2 = ReadOk text ∧ truthy (strip text) = false).

(** The ranking of a store for a query vector: every record with its
    score, most similar first. *)
Definition ranking (W : World) (q : EmbeddingVector) (store : VectorStore)
    : list chroma.scored :=
  merge_sort chroma.ranks_before (chroma.score_all W q store).

(** The chat turn the handler records for the user's question. *)
Definition user_turn (prompt : string) : gmap string string :=
  {[ "role" := "user"; "content" := prompt ]}.

(** The files a trace opens, in order. *)
Definition opened (trace : list effect) : list string :=
  omap (λ e, match e with Open path => Some path | _ => None end) trace.

(** Every character of the text is whitespace for [str.isspace]. *)
Fixpoint all_space (s : string) : bool :=
  match s with
  | EmptyString => true
  | String c s' => isspace c && all_space s'
  end.

(** The chunks a run of the loader hands back: those returned, none
    when it raised. *)
Definition chunks_of (run : list effect * outcome (list Document)) : list Document :=
  match run.2 with
  | Returned documents => documents
  | Raised _ => []
  end.

(** The directory listing the saved uploads make. *)
Definition saved_entries (W : World) (files : list UploadedFile)
    : list (string * file_read) :=
  foldl (λ entries f, save_entry entries (name f) (read_back W (getvalue f))) [] files.

(** The chat turn the handler records for the engine's answer. *)
Definition assistant_turn (response : string) : gmap string string :=
  {[ "role" := "assistant"; "content" := response ]}.

(** A chat turn as the handlers write them. *)
Definition well_formed_turn (turn : gmap string string) : Prop :=
  ∃ content, turn = user_turn content ∨ turn = assistant_turn content.

(** What holds of the session between runs: the turns are well formed,
    both counters are set, and they are positive exactly when an engine
    is. *)
Definition session_ok {E : Type} (ss : session_state E) : Prop :=
  Forall well_formed_turn (chat_history ss)
  ∧ ∃ processed chunks,
      doc_stats ss !! "processed" = Some processed
      ∧ doc_stats ss !! "chunks" = Some chunks
      ∧ (0 < processed ↔ is_Some (rag_engine ss))
      ∧ (0 < chunks ↔ is_Some (rag_engine ss)).

(** ** Data of the examples *)

(** A directory with a text file, a file that cannot
    be decoded, an empty file and a file of another format. *)
Definition mixed_directory : filesystem :=
  λ path,
    if decide (path = "data")
    then Some (Directory
                 [("good.txt", ReadOk "AI is great. ML is a subset of AI.");
                  ("bad.txt", ReadFails (Exception "UnicodeDecodeError" "invalid start byte"));
                  ("blank.txt", ReadOk "  ");
                  ("paper.pdf", ReadOk "%PDF-1.7")])
    else None.

(** The manager [EmbeddingsManager("database")] builds where the model
    loads. *)
Definition database_manager : EmbeddingsManager :=
  {| persist_directory := "database";
     embeddings := {| model_name := "all-MiniLM-L6-v2";
                      cache_folder := "database/models" |} |}.

(** A store of two chunks of one file. *)
Definition two_chunk_store : VectorStore :=
  {| records := [(worlds.chunk "a.txt" "ML", [2%Q]);
                 (worlds.chunk "a.txt" "AI is great.", [12%Q])];
     embedding_function := embeddings database_manager;
     store_directory := "database" |}.

(** A session in which two chunks are indexed and one exchange has taken
    place. *)
Definition indexed_session : session_state rag_engine.RAGEngine :=
  {| rag_engine := Some (rag_engine.__init__ two_chunk_store);
     chat_history := [user_turn "Hello";
                      {[ "role" := "assistant"; "content" := "Hello" ]}];
     doc_stats := {[ "processed" := 1; "chunks" := 2 ]} |}.

(** * Properties *)

(** Unfolds one layer of the program combinators. *)
Ltac step_prog :=
  cbv beta iota zeta delta
    [mbind prog_bind mret prog_ret call traced emit modify gets raise try_except].

(** ** The loader *)

Section loader.
Context (W : World) (self : DocumentProcessor).

(** One iteration never raises and appends the entry's chunks. *)
Lemma process_entry_run entry documents :
  ∃ trace, process_entry W self entry documents
           = (trace, documents ++ entry_chunks W self entry, Returned ()).
Proof.
  destruct entry as [filename content].
  unfold process_entry, entry_chunks, read; simpl.
  destruct (endswith filename ".txt").
  - destruct content as [text|e]; step_prog; simpl.
    + destruct (truthy (strip text)); simpl.
      * destruct (split_documents _ _ _) as [split_docs|e]; simpl;
          rewrite ?app_nil_r; eauto.
      * rewrite app_nil_r; eauto.
    + rewrite app_nil_r; eauto.
  - step_prog. rewrite app_nil_r; eauto.
Qed.

(** An entry whose name does not end in [.txt] is passed over: no
    effect at all. *)
Lemma process_entry_other filename content documents :
  endswith filename ".txt" = false →
  process_entry W self (filename, content) documents = ([], documents, Returned ()).
Proof. intros H. unfold process_entry. by rewrite H. Qed.

(** The loop never raises and leaves [documents] extended by the
    chunks of the directory. *)
Lemma for_in_entries_run entries documents :
  ∃ trace, for_in entries (process_entry W self) documents
           = (trace, documents ++ directory_chunks W self entries, Returned ()).
Proof.
  revert documents. induction entries as [|entry entries IH]; intros documents.
  - exists []. simpl. by rewrite app_nil_r.
  - destruct (process_entry_run entry documents) as [t1 H1].
    destruct (IH (documents ++ entry_chunks W self entry)) as [t2 H2].
    exists (t1 ++ t2). simpl. step_prog. rewrite H1, H2.
    unfold directory_chunks. simpl. by rewrite (assoc_L (++)).
Qed.

(** Over entries none of which is a [.txt] file the loop does nothing. *)
Lemma for_in_entries_other entries documents :
  Forall (λ entry, endswith entry.1 ".txt" = false) entries →
  for_in entries (process_entry W self) documents = ([], documents, Returned ()).
Proof.
  induction 1 as [|[filename content] entries H _ IH]; [done|].
  simpl in H. cbn [for_in]. step_prog.
  rewrite process_entry_other by done. by rewrite IH.
Qed.

Lemma entry_chunks_nothing entry : yields_nothing entry → entry_chunks W self entry = [].
Proof.
  unfold entry_chunks. intros [H|[[e H]|(text & H & Hblank)]]; rewrite H; [done| |].
  - by destruct (endswith _ _).
  - rewrite Hblank. by destruct (endswith _ _).
Qed.

Lemma directory_chunks_nothing entries :
  Forall yields_nothing entries → directory_chunks W self entries = [].
Proof.
  unfold directory_chunks. induction 1 as [|entry entries H _ IH]; [done|].
  rewrite bind_cons, IH. by rewrite entry_chunks_nothing.
Qed.

(** What [load_and_split_documents] returns on a directory, in terms
    of the chunks the directory yields. *)
Lemma load_and_split_directory fs entries :
  fs (directory_path self) = Some (Directory entries) →
  (load_and_split_documents W fs self).2
  = match directory_chunks W self entries with
    | [] => Raised no_valid_documents
    | documents => Returned documents
    end.
Proof.
  intros Hfs. unfold load_and_split_documents, load_and_split_body.
  step_prog. rewrite Hfs. simpl.
  destruct (for_in_entries_run entries []) as [trace ->]. simpl.
  by destruct (directory_chunks W self entries).
Qed.

End loader.

(** The run on [mixed_directory]: the unreadable file and the empty file
    are logged and passed over, the file of another format is not even
    mentioned. *)
Example load_mixed_directory :
  load_and_split_documents worlds.answering mixed_directory
    (document_processor.__init__ "data")
  = ([Log INFO "Processing file: data/good.txt";
      Open "data/good.txt";
      Log INFO "Successfully processed good.txt";
      Log INFO "Processing file: data/bad.txt";
      Open "data/bad.txt";
      Log ERROR "Error processing file data/bad.txt: invalid start byte";
      Log INFO "Processing file: data/blank.txt";
      Open "data/blank.txt";
      Log WARNING "Empty file: data/blank.txt";
      Log INFO "Successfully processed 1 document chunks"],
     Returned [worlds.chunk "good.txt" "AI is great. ML is a subset of AI."]).
Proof. reflexivity. Qed.

(** A path that does not exist is reported as such. *)
Example load_missing_directory :
  load_and_split_documents worlds.answering mixed_directory
    (document_processor.__init__ "nowhere")
  = ([Log ERROR "Error in load_and_split_documents: Directory not found: nowhere"],
     Raised (directory_not_found "nowhere")).
Proof. reflexivity. Qed.

(** C4: on an existing directory, [load_and_split_documents] fails with
    the no-valid-documents error exactly when the directory yields zero
    chunks, which is the case when every entry is not a [.txt] file,
    cannot be read or is empty once trimmed; otherwise it returns the
    chunks.  It fails with no other error, so a file that cannot be read
    never aborts the run: it is skipped, and the chunks are those of the
    directory without it. *)
Theorem load_fails_iff_no_chunks (W : World) (fs : filesystem)
    (self : DocumentProcessor) (entries : list (string * file_read)) :
  fs (directory_path self) = Some (Directory entries) →
  let result := (load_and_split_documents W fs self).2 in
  let chunks := directory_chunks W self entries in
  (result = Raised no_valid_documents ↔ chunks = [])
  ∧ (chunks ≠ [] → result = Returned chunks)
  ∧ (Forall yields_nothing entries → result = Raised no_valid_documents)
  ∧ (∀ e, result = Raised e → e = no_valid_documents)
  ∧ (∀ before filename e after,
       entries = before ++ (filename, ReadFails e) :: after →
       chunks = directory_chunks W self (before ++ after)).
Proof.
  intros Hfs result chunks. subst result chunks.
  rewrite (load_and_split_directory W self fs entries Hfs).
  repeat split.
  - by destruct (directory_chunks W self entries).
  - by intros ->.
  - by destruct (directory_chunks W self entries).
  - intros Hnothing. by rewrite directory_chunks_nothing.
  - intros e. destruct (directory_chunks W self entries); congruence.
  - intros before filename e after ->. unfold directory_chunks.
    rewrite !bind_app, bind_cons.
    by rewrite (entry_chunks_nothing W self (filename, ReadFails e))
      by (right; left; by exists e).
Qed.

Lemma load_fails_iff_no_chunks_witness :
  mixed_directory (directory_path (document_processor.__init__ "data"))
  = Some (Directory
            [("good.txt", ReadOk "AI is great. ML is a subset of AI.");
             ("bad.txt", ReadFails (Exception "UnicodeDecodeError" "invalid start byte"));
             ("blank.txt", ReadOk "  ");
             ("paper.pdf", ReadOk "%PDF-1.7")])
  ∧ (load_and_split_documents worlds.answering mixed_directory
       (document_processor.__init__ "data")).2
    = Returned [worlds.chunk "good.txt" "AI is great. ML is a subset of AI."].
Proof.
  split; [reflexivity|].
  apply (load_fails_iff_no_chunks worlds.answering mixed_directory
           (document_processor.__init__ "data") _ eq_refl).
  vm_compute. discriminate.
Defined.

(** C9: on an existing directory none of whose names ends in [.txt],
    [load_and_split_documents] opens no file and logs no warning, its
    only effect being the final error record, and it fails with the
    no-valid-documents error, which is not the directory-not-found one. *)
Theorem no_txt_names_no_reads (W : World) (fs : filesystem)
    (self : DocumentProcessor) (entries : list (string * file_read)) :
  fs (directory_path self) = Some (Directory entries) →
  Forall (λ entry, endswith entry.1 ".txt" = false) entries →
  let '(trace, result) := load_and_split_documents W fs self in
  trace = [Log ERROR ("Error in load_and_split_documents: " +:+ str no_valid_documents)]
  ∧ (∀ path, Open path ∉ trace)
  ∧ (∀ msg, Log WARNING msg ∉ trace)
  ∧ result = Raised no_valid_documents
  ∧ result ≠ Raised (directory_not_found (directory_path self)).
Proof.
  intros Hfs Hother. unfold load_and_split_documents, load_and_split_body.
  step_prog. rewrite Hfs. simpl.
  rewrite (for_in_entries_other W self entries [] Hother). simpl.
  repeat split.
  - intros path Hin. apply list_elem_of_singleton in Hin. discriminate.
  - intros msg Hin. apply list_elem_of_singleton in Hin. discriminate.
  - discriminate.
Qed.

Lemma no_txt_names_no_reads_witness :
  load_and_split_documents worlds.answering
    (λ path, if decide (path = "data")
             then Some (Directory [("paper.pdf", ReadOk "%PDF-1.7");
                                   ("notes.docx", ReadFails (Exception "OSError" "denied"));
                                   ("README.TXT", ReadOk "read me")])
             else None)
    (document_processor.__init__ "data")
  = ([Log ERROR "Error in load_and_split_documents: No valid documents found or all documents were empty"],
     Raised no_valid_documents).
Proof.
  pose proof (no_txt_names_no_reads worlds.answering
    (λ path, if decide (path = "data")
             then Some (Directory [("paper.pdf", ReadOk "%PDF-1.7");
                                   ("notes.docx", ReadFails (Exception "OSError" "denied"));
                                   ("README.TXT", ReadOk "read me")])
             else None)
    (document_processor.__init__ "data") _ eq_refl) as H.
  destruct (load_and_split_documents _ _ _) as [trace result].
  destruct H as (-> & _ & _ & -> & _); [|reflexivity].
  repeat constructor.
Defined.

(** ** The index builder *)

Lemma for_each_length {A B} (f : A → outcome B) (xs : list A) (ys : list B) :
  for_each f xs = Returned ys → length ys = length xs.
Proof.
  revert ys. induction xs as [|x xs IH]; intros ys; simpl.
  - by intros [= <-].
  - destruct (f x) as [y|e]; simpl; [|done].
    destruct (for_each f xs) as [ys'|e]; simpl; [|done].
    intros [= <-]. simpl. by rewrite (IH ys').
Qed.

(** A store built as the spec says holds the given chunks, in order,
    each with the vector the embedding model returned for it. *)
Lemma from_documents_populated embed (documents : list Document)
    (embedding : SentenceTransformerEmbeddings) (directory : string)
    (vectors : list EmbeddingVector) :
  for_each (embed embedding) (page_content <$> documents) = Returned vectors →
  ∃ store, chroma.from_documents embed documents embedding directory = Returned store
           ∧ (records store).*1 = documents
           ∧ (records store).*2 = vectors.
Proof.
  intros Hvectors. unfold chroma.from_documents. rewrite Hvectors. simpl.
  eexists; split; [reflexivity|]. simpl.
  apply for_each_length in Hvectors. rewrite length_fmap in Hvectors.
  split; [apply fst_zip | apply snd_zip]; lia.
Qed.

(** On a non-empty sequence the result is the constructor's. *)
Lemma create_vector_store_result (W : World) (self : EmbeddingsManager)
    (doc : Document) (documents : list Document) :
  (create_vector_store W self (doc :: documents)).2
  = from_documents W (doc :: documents) (embeddings self) (persist_directory self).
Proof.
  unfold create_vector_store. step_prog.
  by destruct (from_documents W _ _ _) as [store|e].
Qed.

(** With a constructor that does what the spec says, the handle
    [create_vector_store] returns is to a store holding exactly the given
    chunks, provided every chunk could be embedded. *)
Lemma create_vector_store_populated (W : World) (self : EmbeddingsManager)
    (doc : Document) (documents : list Document) (vectors : list EmbeddingVector) :
  from_documents W = chroma.from_documents (embed_text W) →
  for_each (embed_text W (embeddings self)) (page_content <$> doc :: documents)
  = Returned vectors →
  ∃ store, (create_vector_store W self (doc :: documents)).2 = Returned store
           ∧ (records store).*1 = doc :: documents
           ∧ (records store).*2 = vectors.
Proof.
  intros Hspec Hvectors.
  rewrite create_vector_store_result, Hspec. by apply from_documents_populated.
Qed.

(** C5, as the code has it: [create_vector_store] fails with the
    no-documents error on the empty sequence, without calling the store
    constructor; a non-empty sequence it passes whole and in order, with
    the manager's embedding model and persistence directory, to
    [Chroma.from_documents], and it returns the handle the constructor
    returns or raises the constructor's error again, logged.  With the
    constructor of the spec, one embedding per chunk and every pair
    inserted, the handle is to a store populated with exactly the given
    chunks, in order, each with its embedding, unless the embedding of
    a chunk fails, whose error is then the one raised. *)
Theorem create_vector_store_contract (W : World) (self : EmbeddingsManager)
    (doc : Document) (documents : list Document) :
  create_vector_store W self []
  = ([Log INFO "Creating vector store...";
      Log ERROR "Error creating vector store: No documents provided"],
     Raised (ValueError "No documents provided"))
  ∧ (create_vector_store W self (doc :: documents)).2
    = from_documents W (doc :: documents) (embeddings self) (persist_directory self)
  ∧ (∀ e, (create_vector_store W self (doc :: documents)).2 = Raised e →
          Log ERROR ("Error creating vector store: " +:+ str e)
          ∈ (create_vector_store W self (doc :: documents)).1)
  ∧ (from_documents W = chroma.from_documents (embed_text W) →
     match for_each (embed_text W (embeddings self))
             (page_content <$> doc :: documents) with
     | Returned vectors =>
         ∃ store, (create_vector_store W self (doc :: documents)).2 = Returned store
                  ∧ (records store).*1 = doc :: documents
                  ∧ (records store).*2 = vectors
     | Raised e => (create_vector_store W self (doc :: documents)).2 = Raised e
     end).
Proof.
  split; [reflexivity|]. split; [apply create_vector_store_result|]. split.
  - unfold create_vector_store. step_prog.
    destruct (from_documents W _ _ _) as [store|e0]; simpl; [done|].
    intros e [= ->]. apply list_elem_of_further, list_elem_of_here.
  - intros Hspec.
    destruct (for_each _ _) as [vectors|e] eqn:Hvectors.
    + by apply create_vector_store_populated.
    + rewrite create_vector_store_result, Hspec.
      unfold chroma.from_documents. by rewrite Hvectors.
Qed.

Lemma create_vector_store_contract_witness :
  from_documents worlds.answering = chroma.from_documents (embed_text worlds.answering)
  ∧ ∃ store,
      (create_vector_store worlds.answering database_manager
         [worlds.chunk "notes.txt" "AI is great. ML is a subset of AI."]).2
      = Returned store
      ∧ (records store).*1
        = [worlds.chunk "notes.txt" "AI is great. ML is a subset of AI."]
      ∧ (records store).*2 = [[34%Q]].
Proof.
  split; [reflexivity|].
  exact (proj2 (proj2 (proj2
           (create_vector_store_contract worlds.answering database_manager
              (worlds.chunk "notes.txt" "AI is great. ML is a subset of AI.") [])))
           eq_refl).
Defined.

(** C5 as stated fails: with the embedding service out of reach, a
    non-empty sequence of chunks gets no handle, the error is raised
    again. *)
Lemma create_vector_store_may_raise :
  (create_vector_store worlds.embedding_down database_manager
     [worlds.chunk "notes.txt" "AI is great. ML is a subset of AI."]).2
  = Raised (Exception "ConnectionError" "embedding service unreachable")
  ∧ ∀ store,
      (create_vector_store worlds.embedding_down database_manager
         [worlds.chunk "notes.txt" "AI is great. ML is a subset of AI."]).2
      ≠ Returned store.
Proof. split; [reflexivity|]. intros store. discriminate. Qed.

(** ** Retrieval *)

#[local] Instance ranks_before_total : Total chroma.ranks_before.
Proof.
  intros a b. unfold chroma.ranks_before.
  destruct (Qlt_le_dec a.2 b.2) as [H|H]; [right; by apply Qlt_le_weak | by left].
Qed.

#[local] Instance ranks_before_trans : Transitive chroma.ranks_before.
Proof. intros a b c Hab Hbc. unfold chroma.ranks_before in *. by eapply Qle_trans. Qed.






(** The closest chunk by length comes first. *)
Example query_two_chunk_store :
  (chroma.query worlds.answering two_chunk_store "What is ML?" 1).2
  = Returned [(worlds.chunk "a.txt" "AI is great.", (-(1))%Q)].
Proof. vm_compute. reflexivity. Qed.

(** ** The shell *)

Section shell.
Context {E : Type} `{!RAGEngineClass E} (W : World).

(** [process_files] writes the session only once everything has
    succeeded: when it raises, the session is the one it was given. *)
Lemma process_files_raises (files : list UploadedFile) (ss : session_state E) (e : exn) :
  (process_files W files ss).2 = Raised e → (process_files W files ss).1.2 = ss.
Proof.
  unfold process_files. step_prog.
  destruct (mkdtemp W) as [temp_dir|e0]; simpl; [|done].
  destruct (makedirs W _) as [[]|e0]; simpl; [|done].
  destruct (for_each _ files) as [written|e0]; simpl; [|done].
  destruct (embeddings_manager.__init__ W "database") as [manager|e0]; simpl; [|done].
  destruct (load_and_split_documents W _ _) as [t1 [documents|e0]]; simpl; [|done].
  destruct (create_vector_store W manager documents) as [t2 [store|e0]]; simpl; [|done].
  destruct (RAGEngine_init W store) as [engine|e0]; simpl; done.
Qed.

End shell.

(** The engine of the spec comes back from a question as it went in. *)
Lemma spec_engine_unchanged (W : World) (engine : rag_engine.RAGEngine) (question : string) :
  (answer_question W engine question).1 = engine.
Proof. reflexivity. Qed.

(** Uploading one text file into a fresh session sets the engine and
    the counters and leaves the chat history empty. *)
Example upload_then_counters :
  let ss := (run worlds.answering (ProcessDocuments [worlds.notes])
               (initial_session_state rag_engine.RAGEngine)).1.2 in
  doc_stats ss = {[ "processed" := 1; "chunks" := 1 ]}
  ∧ chat_history ss = []
  ∧ (rag_engine.vector_store <$> rag_engine ss)
    = Some {| records := [(worlds.chunk "notes.txt" "AI is great. ML is a subset of AI.",
                           [34%Q])];
              embedding_function := embeddings database_manager;
              store_directory := "database" |}.
Proof. repeat split; vm_compute; reflexivity. Qed.




(** The chat handler as a whole, on a question whose answer fails: the
    question is shown and recorded, then the error is shown. *)
Example failed_answer_extends_history :
  (run worlds.llm_down (ChatInput "What is ML?") indexed_session).1.1
  = [St (chat_message "user" "What is ML?");
     St (st_error "Error: language model timed out")]
  ∧ chat_history (run worlds.llm_down (ChatInput "What is ML?") indexed_session).1.2
    = [user_turn "Hello";
       {[ "role" := "assistant"; "content" := "Hello" ]};
       user_turn "What is ML?"].
Proof. split; reflexivity. Qed.

(** C8: saving the Settings while an engine is set returns normally and
    shows the confirmation only; it calls no service, the chat history,
    the document counters and the engine's vector store are what they
    were, and the engine holds the new temperature and context length.
    The next question is answered from the same ranking of the same
    store: the chunks passed to generation are its first
    [context_length] entries, where they were the first entries by the
    old setting, and the language model is called with the new
    temperature. *)
Theorem save_settings_frame (W : World) (ss : session_state rag_engine.RAGEngine)
    (engine : rag_engine.RAGEngine) (t : Q) (k : nat) :
  rag_engine ss = Some engine →
  let '(trace, ss', result) := run W (SaveSettings t k) ss in
  result = Returned ()
  ∧ trace = [St (st_success "Settings updated!")]
  ∧ (∀ W', run W' (SaveSettings t k) ss = run W (SaveSettings t k) ss)
  ∧ chat_history ss' = chat_history ss
  ∧ doc_stats ss' = doc_stats ss
  ∧ ∃ engine',
      rag_engine ss' = Some engine'
      ∧ rag_engine.vector_store engine' = rag_engine.vector_store engine
      ∧ rag_engine.temperature engine' = t
      ∧ rag_engine.context_length engine' = k
      ∧ ∀ question q,
          embed_text W (embedding_function (rag_engine.vector_store engine)) question
          = Returned q →
          let ranked := (ranking W q (rag_engine.vector_store engine)).*1 in
          rag_engine.retrieve W engine question
          = Returned (take (rag_engine.context_length engine) ranked)
          ∧ rag_engine.retrieve W engine' question = Returned (take k ranked)
          ∧ (records (rag_engine.vector_store engine) ≠ [] →
             answer_question W engine' question
             = (engine', llm W (prompt W (take k ranked) question) t)).
Proof.
  intros Hengine. simpl. unfold on_save_settings. step_prog. rewrite Hengine. simpl.
  do 5 (split; [done|]).
  exists (rag_engine.update_settings engine t k). do 4 (split; [done|]).
  intros question q Hq.
  unfold rag_engine.retrieve, chroma.query, rag_engine.answer_question. simpl.
  rewrite Hq. simpl.
  rewrite <-!fmap_take. do 2 (split; [done|]).
  intros Hrecords. unfold rag_engine.retrieve, chroma.query. simpl.
  destruct (records (rag_engine.vector_store engine)) eqn:Hstore; [done|].
  by rewrite Hq.
Qed.

Lemma save_settings_frame_witness :
  rag_engine indexed_session = Some (rag_engine.__init__ two_chunk_store)
  ∧ (run worlds.answering (SaveSettings (2 # 10) 1) indexed_session).1.2
    = set_rag_engine
        (Some {| rag_engine.vector_store := two_chunk_store;
                 rag_engine.temperature := 2 # 10;
                 rag_engine.context_length := 1 |})
        indexed_session.
Proof.
  split; [reflexivity|].
  pose proof (save_settings_frame worlds.answering indexed_session
                (rag_engine.__init__ two_chunk_store) (2 # 10) 1 eq_refl) as H.
  destruct (run worlds.answering (SaveSettings (2 # 10) 1) indexed_session)
    as [[trace ss'] result].
  destruct H as (_ & _ & _ & Hchat & Hstats & engine' & Hset & Hstore & Ht & Hk & _).
  destruct ss' as [e c d], engine' as [v t' k']. simpl in *. by subst.
Defined.

(** C10: clearing the chat history returns normally, sets the chat
    history to the empty list and leaves the engine handle, with the
    vector store it holds, and the document counters as they were. *)
Theorem clear_chat_history_frame {E : Type} `{!RAGEngineClass E}
    (W : World) (ss : session_state E) :
  let '(trace, ss', result) := run W ClearChatHistory ss in
  result = Returned ()
  ∧ trace = [St (st_success "Chat history cleared!"); St st_rerun]
  ∧ chat_history ss' = []
  ∧ rag_engine ss' = rag_engine ss
  ∧ doc_stats ss' = doc_stats ss.
Proof. by repeat split. Qed.

(** * Further properties of the code *)

(** ** Names and texts *)

Lemma length_append (a b : string) :
  String.length (a +:+ b) = String.length a + String.length b.
Proof. induction a as [|c a IH]; simpl; [done|]. by rewrite IH. Qed.

Lemma substring_whole (p : string) : substring 0 (String.length p) p = p.
Proof. induction p as [|c p IH]; simpl; [done|]. by rewrite IH. Qed.

Lemma substring_after (q p : string) (n : nat) :
  substring (String.length q) n (q +:+ p) = substring 0 n p.
Proof. induction q as [|c q IH]; simpl; [done|]. apply IH. Qed.

Lemma substring_split (n : nat) (s : string) :
  n ≤ String.length s →
  s = substring 0 n s +:+ substring n (String.length s - n) s.
Proof.
  revert s. induction n as [|n IH]; intros s Hn.
  - rewrite Nat.sub_0_r, substring_whole. by destruct s.
  - destruct s as [|c s]; simpl in *; [lia|].
    change (String c s = String c (substring 0 n s
                                   +:+ substring n (String.length s - n) s)).
    f_equal. apply IH. lia.
Qed.

(** [s.endswith(p)] holds exactly of the strings that are something
    followed by [p]. *)
Lemma endswith_iff (s p : string) : endswith s p = true ↔ ∃ q, s = q +:+ p.
Proof.
  unfold endswith. rewrite andb_true_iff, Nat.leb_le, String.eqb_eq. split.
  - intros [Hlen Hsub].
    exists (substring 0 (String.length s - String.length p) s).
    pose proof (substring_split (String.length s - String.length p) s) as Hsplit.
    replace (String.length s - (String.length s - String.length p))
      with (String.length p) in Hsplit by lia.
    rewrite Hsub in Hsplit. apply Hsplit. lia.
  - intros [q ->]. rewrite length_append. split; [lia|].
    replace (String.length q + String.length p - String.length p)
      with (String.length q) by lia.
    by rewrite substring_after, substring_whole.
Qed.

Lemma all_space_rev_app (s1 s2 : string) :
  all_space (String.rev_app s1 s2) = all_space s1 && all_space s2.
Proof.
  revert s2. induction s1 as [|c s1 IH]; intros s2; simpl; [done|].
  rewrite IH. simpl. destruct (isspace c), (all_space s1); simpl; done.
Qed.

Lemma all_space_rev (s : string) : all_space (String.rev s) = all_space s.
Proof. unfold String.rev. rewrite all_space_rev_app. simpl. apply andb_true_r. Qed.

Lemma lstrip_all_space (s : string) : all_space s = true → lstrip s = "".
Proof.
  induction s as [|c s IH]; simpl; [done|].
  destruct (isspace c); simpl; [done|discriminate].
Qed.

Lemma lstrip_keeps_text (s : string) : all_space s = false → all_space (lstrip s) = false.
Proof.
  induction s as [|c s IH]; simpl; [done|].
  destruct (isspace c) eqn:Hc; simpl; [done|]. by rewrite Hc.
Qed.

(** A text is empty once stripped exactly when all its characters are
    whitespace. *)
Lemma strip_truthy (text : string) : truthy (strip text) = negb (all_space text).
Proof.
  unfold strip, rstrip, truthy.
  destruct (all_space text) eqn:Hspace; simpl.
  - by rewrite (lstrip_all_space text Hspace).
  - apply lstrip_keeps_text in Hspace.
    assert (all_space (String.rev (lstrip text)) = false) as Hrev
      by (by rewrite all_space_rev).
    apply lstrip_keeps_text in Hrev.
    assert (all_space (String.rev (lstrip (String.rev (lstrip text)))) = false) as Hout
      by (by rewrite all_space_rev).
    destruct (String.rev (lstrip (String.rev (lstrip text)))); [discriminate|done].
Qed.

(** ** More on the loader *)

Section loader_entries.
Context (W : World) (self : DocumentProcessor).

(** X5: a readable [.txt] entry is opened once.  When all its characters
    are whitespace it gets the empty-file warning and the splitter is
    not asked; otherwise the splitter gets one document holding the
    whole text, untrimmed, with the file name as source, and its chunks
    are appended, or its error is logged and the list left alone. *)
Theorem text_file_processing (filename text : string) (documents : list Document) :
  endswith filename ".txt" = true →
  process_entry W self (filename, ReadOk text) documents
  = let path := os_path_join (directory_path self) filename in
    let start := [Log INFO ("Processing file: " +:+ path); Open path] in
    if all_space text
    then (start ++ [Log WARNING ("Empty file: " +:+ path)], documents, Returned ())
    else match split_documents W (text_splitter self)
                 [{| page_content := text; metadata := {[ "source" := filename ]} |}] with
         | Returned split_docs =>
             (start ++ [Log INFO ("Successfully processed " +:+ filename)],
              documents ++ split_docs, Returned ())
         | Raised e =>
             (start ++ [Log ERROR ("Error processing file " +:+ path +:+ ": " +:+ str e)],
              documents, Returned ())
         end.
Proof.
  intros Htxt. unfold process_entry, read. rewrite Htxt. step_prog.
  rewrite strip_truthy. simpl.
  destruct (all_space text); simpl; [done|].
  by destruct (split_documents _ _ _).
Qed.

(** An entry that cannot be read is opened, logged as an error and
    passed over. *)
Lemma process_entry_unreadable (filename : string) (e : exn) (documents : list Document) :
  endswith filename ".txt" = true →
  process_entry W self (filename, ReadFails e) documents
  = let path := os_path_join (directory_path self) filename in
    ([Log INFO ("Processing file: " +:+ path); Open path;
      Log ERROR ("Error processing file " +:+ path +:+ ": " +:+ str e)],
     documents, Returned ()).
Proof. intros Htxt. unfold process_entry, read. rewrite Htxt. by step_prog. Qed.

(** The files one iteration opens. *)
Lemma process_entry_opened (entry : string * file_read) (documents : list Document) :
  opened (process_entry W self entry documents).1.1
  = if endswith entry.1 ".txt"
    then [os_path_join (directory_path self) entry.1]
    else [].
Proof.
  destruct entry as [filename content]. unfold process_entry, read. cbn [fst].
  destruct (endswith filename ".txt"); [|done]. step_prog.
  destruct content as [text|e]; simpl; [|done].
  destruct (truthy (strip text)); simpl; [|done].
  by destruct (split_documents _ _ _).
Qed.

(** X4: an entry is opened exactly when its name is something followed
    by [.txt]; the path opened is then the directory joined with the
    name. *)
Theorem entry_opened_iff_txt_name (entry : string * file_read)
    (documents : list Document) (path : string) :
  Open path ∈ (process_entry W self entry documents).1.1
  ↔ (∃ stem, entry.1 = stem +:+ ".txt")
    ∧ path = os_path_join (directory_path self) entry.1.
Proof.
  rewrite <-endswith_iff.
  assert (Open path ∈ (process_entry W self entry documents).1.1
          ↔ path ∈ opened (process_entry W self entry documents).1.1) as ->.
  { unfold opened. rewrite list_elem_of_omap. split.
    - intros Hin. by exists (Open path).
    - intros ([| |] & Hin & Heq); simplify_eq. done. }
  rewrite process_entry_opened.
  destruct (endswith entry.1 ".txt").
  - rewrite list_elem_of_singleton. tauto.
  - rewrite elem_of_nil. split; [done|]. by intros [? _].
Qed.

(** The files the loop opens: the [.txt] names, in listing order. *)
Lemma for_in_entries_opened (entries : list (string * file_read))
    (documents : list Document) :
  opened (for_in entries (process_entry W self) documents).1.1
  = os_path_join (directory_path self)
    <$> filter (λ filename, Is_true (endswith filename ".txt")) entries.*1.
Proof.
  revert documents. induction entries as [|entry entries IH]; intros documents; [done|].
  cbn [for_in]. step_prog.
  pose proof (process_entry_opened entry documents) as Hentry.
  destruct (process_entry_run W self entry documents) as [t1 H1].
  rewrite H1 in Hentry |- *. simpl in Hentry.
  specialize (IH (documents ++ entry_chunks W self entry)).
  destruct (for_in entries _ _) as [[t2 documents2] r2]. simpl in *.
  unfold opened in *. rewrite omap_app, Hentry, IH.
  destruct (endswith entry.1 ".txt") eqn:Htxt.
  - rewrite filter_cons_True by (by apply Is_true_true). reflexivity.
  - rewrite filter_cons_False by (by apply Is_true_false). reflexivity.
Qed.

End loader_entries.

Section loader_directory.
Context (W : World) (fs : filesystem) (self : DocumentProcessor).

(** The run on a directory: the loop's trace, then one record, the
    count of chunks when there are some and the error when there are
    none. *)
Lemma load_and_split_on_directory (entries : list (string * file_read)) :
  fs (directory_path self) = Some (Directory entries) →
  load_and_split_documents W fs self
  = let loop := (for_in entries (process_entry W self) []).1.1 in
    match directory_chunks W self entries with
    | [] =>
        (loop ++ [Log ERROR ("Error in load_and_split_documents: "
                             +:+ str no_valid_documents)],
         Raised no_valid_documents)
    | documents =>
        (loop ++ [Log INFO ("Successfully processed "
                            +:+ str_of_nat (length documents) +:+ " document chunks")],
         Returned documents)
    end.
Proof.
  intros Hfs. unfold load_and_split_documents, load_and_split_body.
  step_prog. rewrite Hfs. simpl.
  destruct (for_in_entries_run W self entries []) as [trace ->]. simpl.
  destruct (directory_chunks W self entries); simpl; [|done].
  by rewrite app_nil_r.
Qed.

(** X1: the loader fails in three ways only: the path does not exist,
    listing it raises, or the directory yields no chunk.  Every failure
    is logged, once and last, with the text of the error raised. *)
Theorem load_failure_cases (e : exn) :
  (load_and_split_documents W fs self).2 = Raised e →
  (fs (directory_path self) = None ∧ e = directory_not_found (directory_path self)
   ∨ fs (directory_path self) = Some (NotListable e)
   ∨ ∃ entries, fs (directory_path self) = Some (Directory entries)
                ∧ directory_chunks W self entries = []
                ∧ e = no_valid_documents)
  ∧ last (load_and_split_documents W fs self).1
    = Some (Log ERROR ("Error in load_and_split_documents: " +:+ str e)).
Proof.
  destruct (fs (directory_path self)) as [[entries|e0]|] eqn:Hfs.
  - rewrite (load_and_split_on_directory entries Hfs).
    destruct (directory_chunks W self entries) eqn:Hchunks; simpl; [|done].
    intros [= <-]. split; [|by rewrite last_snoc].
    right; right. by exists entries.
  - unfold load_and_split_documents, load_and_split_body. step_prog.
    rewrite Hfs. simpl. intros [= <-]. split; [|done]. by right; left.
  - unfold load_and_split_documents, load_and_split_body. step_prog.
    rewrite Hfs. simpl. intros [= <-]. split; [|done]. by left.
Qed.

(** X6: a list the loader returns is never empty, and the last record
    of the run reports its length. *)
Theorem load_success_counted (documents : list Document) :
  (load_and_split_documents W fs self).2 = Returned documents →
  documents ≠ []
  ∧ last (load_and_split_documents W fs self).1
    = Some (Log INFO ("Successfully processed "
                      +:+ str_of_nat (length documents) +:+ " document chunks")).
Proof.
  destruct (fs (directory_path self)) as [[entries|e0]|] eqn:Hfs.
  - rewrite (load_and_split_on_directory entries Hfs).
    destruct (directory_chunks W self entries) eqn:Hchunks; simpl; [done|].
    intros [= <-]. split; [done|]. by rewrite last_snoc.
  - unfold load_and_split_documents, load_and_split_body. step_prog.
    by rewrite Hfs.
  - unfold load_and_split_documents, load_and_split_body. step_prog.
    by rewrite Hfs.
Qed.

(** X2: every chunk the loader returns was returned by the splitter for
    one document made of the whole text of a readable entry of the
    directory whose name ends in [.txt] and whose text is not all
    whitespace, with that name as its source. *)
Theorem loaded_chunk_provenance (entries : list (string * file_read))
    (documents : list Document) (chunk : Document) :
  fs (directory_path self) = Some (Directory entries) →
  (load_and_split_documents W fs self).2 = Returned documents →
  chunk ∈ documents →
  ∃ stem text split_docs,
    (stem +:+ ".txt", ReadOk text) ∈ entries
    ∧ all_space text = false
    ∧ split_documents W (text_splitter self)
        [{| page_content := text; metadata := {[ "source" := stem +:+ ".txt" ]} |}]
      = Returned split_docs
    ∧ chunk ∈ split_docs.
Proof.
  intros Hfs Hload Hchunk.
  rewrite (load_and_split_directory W self fs entries Hfs) in Hload.
  assert (documents = directory_chunks W self entries) as ->
    by (destruct (directory_chunks W self entries); congruence).
  apply list_elem_of_bind in Hchunk as ([filename content] & Hin & Hentry).
  unfold entry_chunks in Hin. simpl in Hin.
  destruct (endswith filename ".txt") eqn:Htxt; [|by apply elem_of_nil in Hin].
  apply endswith_iff in Htxt as [stem ->].
  destruct content as [text|e]; [|by apply elem_of_nil in Hin].
  rewrite strip_truthy in Hin.
  destruct (all_space text) eqn:Hspace; simpl in Hin; [by apply elem_of_nil in Hin|].
  destruct (split_documents _ _ _) as [split_docs|e] eqn:Hsplit;
    [|by apply elem_of_nil in Hin].
  by exists stem, text, split_docs.
Qed.

(** X3: the files the loader opens on a directory are the entries whose
    name ends in [.txt], each once, in listing order, under the
    directory's path; no other file is opened. *)
Theorem opened_files_are_txt (entries : list (string * file_read)) :
  fs (directory_path self) = Some (Directory entries) →
  opened (load_and_split_documents W fs self).1
  = os_path_join (directory_path self)
    <$> filter (λ filename, Is_true (endswith filename ".txt")) entries.*1.
Proof.
  intros Hfs. rewrite (load_and_split_on_directory entries Hfs).
  rewrite <-(for_in_entries_opened W self entries []).
  destruct (directory_chunks W self entries); simpl;
    unfold opened; rewrite omap_app; simpl; by rewrite app_nil_r.
Qed.

End loader_directory.

(** ** The saved uploads *)

Lemma uploaded_directory_entries (W : World) (data_path : string)
    (files : list UploadedFile) :
  uploaded_directory W data_path files data_path
  = Some (Directory (saved_entries W files)).
Proof. unfold uploaded_directory. by rewrite decide_True. Qed.

Lemma saved_entries_snoc (W : World) (files : list UploadedFile) (f : UploadedFile) :
  saved_entries W (files ++ [f])
  = save_entry (saved_entries W files) (name f) (read_back W (getvalue f)).
Proof. unfold saved_entries. by rewrite foldl_snoc. Qed.

Lemma save_entry_names entries filename content :
  (save_entry entries filename content).*1
  = if decide (filename ∈ entries.*1) then entries.*1 else entries.*1 ++ [filename].
Proof.
  unfold save_entry. destruct (decide (filename ∈ entries.*1)) as [Hin|Hin].
  - rewrite <-list_fmap_compose. apply list_fmap_ext.
    intros i [n c] _. simpl. by destruct (decide (n = filename)) as [->|].
  - by rewrite fmap_app.
Qed.

Lemma save_entry_written entries filename content :
  (filename, content) ∈ save_entry entries filename content.
Proof.
  unfold save_entry. destruct (decide (filename ∈ entries.*1)) as [Hin|Hin].
  - apply list_elem_of_fmap in Hin as ([n c] & -> & Hin).
    apply list_elem_of_fmap. exists (n, c). simpl. by rewrite decide_True.
  - apply elem_of_app. right. apply list_elem_of_here.
Qed.

Lemma save_entry_other entries filename content other kept :
  other ≠ filename →
  (other, kept) ∈ entries →
  (other, kept) ∈ save_entry entries filename content.
Proof.
  intros Hne Hin. unfold save_entry. destruct (decide (filename ∈ entries.*1)).
  - apply list_elem_of_fmap. exists (other, kept). simpl. by rewrite decide_False.
  - apply elem_of_app. by left.
Qed.

Lemma saved_entries_names (W : World) (files : list UploadedFile) (filename : string) :
  filename ∈ (saved_entries W files).*1 ↔ filename ∈ name <$> files.
Proof.
  induction files as [|f files IH] using rev_ind.
  - done.
  - rewrite saved_entries_snoc, save_entry_names, fmap_app, elem_of_app. simpl.
    rewrite list_elem_of_singleton, <-IH.
    destruct (decide (name f ∈ (saved_entries W files).*1)) as [Hin|Hin].
    + split; [by left|]. by intros [?| ->].
    + by rewrite elem_of_app, list_elem_of_singleton.
Qed.

(** The listing the model gives the saved uploads has every uploaded
    name once; of several uploads with one name the last one's content
    stands. *)
Lemma saved_uploads_last_wins (W : World) (files : list UploadedFile) :
  NoDup (saved_entries W files).*1
  ∧ (∀ filename, filename ∈ (saved_entries W files).*1 ↔ filename ∈ name <$> files)
  ∧ (∀ before f after,
       files = before ++ f :: after →
       name f ∉ name <$> after →
       (name f, read_back W (getvalue f)) ∈ saved_entries W files).
Proof.
  split; [|split].
  - induction files as [|f files IH] using rev_ind; [constructor|].
    rewrite saved_entries_snoc, save_entry_names.
    destruct (decide (name f ∈ (saved_entries W files).*1)) as [Hin|Hin]; [done|].
    apply NoDup_app. split; [done|]. split; [|apply NoDup_singleton].
    intros x Hx Hx'. apply list_elem_of_singleton in Hx'. by subst.
  - apply saved_entries_names.
  - intros before f after -> Hlast.
    induction after as [|g after IH] using rev_ind.
    + rewrite saved_entries_snoc. apply save_entry_written.
    + rewrite fmap_app, elem_of_app in Hlast. simpl in Hlast.
      rewrite list_elem_of_singleton in Hlast.
      replace (before ++ f :: after ++ [g]) with ((before ++ f :: after) ++ [g])
        by (by rewrite <-app_assoc).
      rewrite saved_entries_snoc. apply save_entry_other; [|apply IH]; naive_solver.
Qed.

(** ** More on the shell *)

(** [EmbeddingsManager("database")], when it returns, returns the
    manager whose model is cached under [database/models]. *)
Lemma database_manager_init (W : World) (manager : EmbeddingsManager) :
  embeddings_manager.__init__ W "database" = Returned manager →
  manager = database_manager.
Proof.
  unfold embeddings_manager.__init__.
  destruct (makedirs W "database") as [[]|e]; simpl; [|done].
  destruct (load_model W _ _) as [[]|e]; simpl; [|done].
  by intros [= <-].
Qed.

Lemma load_returned_nonempty (W : World) (fs : filesystem) (self : DocumentProcessor)
    (documents : list Document) :
  (load_and_split_documents W fs self).2 = Returned documents → documents ≠ [].
Proof.
  destruct (fs (directory_path self)) as [[entries|e0]|] eqn:Hfs.
  - rewrite (load_and_split_directory W self fs entries Hfs).
    destruct (directory_chunks W self entries); [done|]. by intros [= <-].
  - unfold load_and_split_documents, load_and_split_body. step_prog. by rewrite Hfs.
  - unfold load_and_split_documents, load_and_split_body. step_prog. by rewrite Hfs.
Qed.

(** The names in the saved directory are uploaded names. *)
Lemma saved_entries_without_txt (W : World) (files : list UploadedFile) :
  Forall (λ f, endswith (name f) ".txt" = false) files →
  Forall (λ entry, endswith entry.1 ".txt" = false) (saved_entries W files).
Proof.
  intros Hfiles. apply Forall_forall. intros [filename content] Hin. simpl.
  assert (filename ∈ name <$> files) as Hname.
  { rewrite <-(saved_entries_names W).
    apply list_elem_of_fmap. by exists (filename, content). }
  apply list_elem_of_fmap in Hname as (f & -> & Hf).
  by apply (proj1 (Forall_forall _ _) Hfiles).
Qed.

Section shell_more.
Context {E : Type} `{!RAGEngineClass E} (W : World).

(** What a session looks like once [process_files] has returned. *)
Lemma process_files_returned (files : list UploadedFile) (ss : session_state E) (b : bool) :
  (process_files W files ss).2 = Returned b →
  ∃ (engine : E) (documents : list Document),
    documents ≠ []
    ∧ (process_files W files ss).1.2
      = {| rag_engine := Some engine;
           chat_history := chat_history ss;
           doc_stats := <[ "chunks" := length documents ]>
                          (<[ "processed" := length files ]> (doc_stats ss)) |}.
Proof.
  unfold process_files. step_prog.
  destruct (mkdtemp W) as [temp_dir|e0]; simpl; [|done].
  destruct (makedirs W _) as [[]|e0]; simpl; [|done].
  destruct (for_each _ files) as [written|e0]; simpl; [|done].
  destruct (embeddings_manager.__init__ W "database") as [manager|e0]; simpl; [|done].
  destruct (load_and_split_documents W _ _) as [t1 [documents|e0]] eqn:Hload;
    simpl; [|done].
  destruct (create_vector_store W manager documents) as [t2 [store|e0]]; simpl; [|done].
  destruct (RAGEngine_init W store) as [engine|e0]; simpl; [|done].
  intros _. exists engine, documents. split; [|done].
  eapply load_returned_nonempty. by rewrite Hload.
Qed.

(** X7: [process_files] returns only [True], and only when the
    temporary directory and its [data] folder were made, every upload
    was written, the embeddings manager for [database] was built, and
    the loader, the store constructor and the engine constructor all
    returned.  The session then holds the engine built on the store of
    the loaded chunks, whatever engine it held before; the counter
    [processed] is the number of uploaded files, read or not, the
    counter [chunks] the number of chunks, and the chat history is the
    one before. *)
Theorem process_files_success (files : list UploadedFile) (ss : session_state E)
    (b : bool) :
  (process_files W files ss).2 = Returned b →
  b = true
  ∧ ∃ temp_dir written documents store engine,
      mkdtemp W = Returned temp_dir
      ∧ makedirs W (os_path_join temp_dir "data") = Returned ()
      ∧ for_each (λ f, write_file W (os_path_join (os_path_join temp_dir "data") (name f))
                                  (getvalue f)) files
        = Returned written
      ∧ embeddings_manager.__init__ W "database" = Returned database_manager
      ∧ (load_and_split_documents W
           (uploaded_directory W (os_path_join temp_dir "data") files)
           (document_processor.__init__ (os_path_join temp_dir "data"))).2
        = Returned documents
      ∧ from_documents W documents
          {| model_name := "all-MiniLM-L6-v2"; cache_folder := "database/models" |}
          "database"
        = Returned store
      ∧ RAGEngine_init W store = Returned engine
      ∧ (process_files W files ss).1.2
        = {| rag_engine := Some engine;
             chat_history := chat_history ss;
             doc_stats := <[ "chunks" := length documents ]>
                            (<[ "processed" := length files ]> (doc_stats ss)) |}.
Proof.
  unfold process_files. step_prog.
  destruct (mkdtemp W) as [temp_dir|e0]; simpl; [|done].
  destruct (makedirs W _) as [[]|e0] eqn:Hmake; simpl; [|done].
  destruct (for_each _ files) as [written|e0] eqn:Hwritten; simpl; [|done].
  destruct (embeddings_manager.__init__ W "database") as [manager|e0] eqn:Hmanager;
    simpl; [|done].
  pose proof (database_manager_init W manager Hmanager) as ->.
  destruct (load_and_split_documents W _ _) as [t1 [documents|e0]] eqn:Hload;
    simpl; [|done].
  assert (documents ≠ []) as Hdocuments
    by (eapply load_returned_nonempty; by rewrite Hload).
  destruct documents as [|doc documents]; [done|].
  pose proof (create_vector_store_result W database_manager doc documents) as Hstore.
  destruct (create_vector_store W database_manager (doc :: documents))
    as [t2 [store|e0]]; simpl in *; [|done].
  destruct (RAGEngine_init W store) as [engine|e0] eqn:Hengine; simpl; [|done].
  intros [= <-]. split; [done|].
  exists temp_dir, written, (doc :: documents), store, engine.
  rewrite Hload. by repeat split.
Qed.

(** X8: uploads none of whose names ends in [.txt] are never processed
    successfully and leave the session as it was; when the temporary
    directory, the writes and the embeddings manager succeed, the error
    is the loader's no-valid-documents error. *)
Theorem uploads_without_txt_fail (files : list UploadedFile) (ss : session_state E) :
  Forall (λ f, endswith (name f) ".txt" = false) files →
  ∃ e,
    (process_files W files ss).2 = Raised e
    ∧ (process_files W files ss).1.2 = ss
    ∧ (∀ temp_dir written manager,
         mkdtemp W = Returned temp_dir →
         makedirs W (os_path_join temp_dir "data") = Returned () →
         for_each (λ f, write_file W (os_path_join (os_path_join temp_dir "data") (name f))
                                   (getvalue f)) files
         = Returned written →
         embeddings_manager.__init__ W "database" = Returned manager →
         e = no_valid_documents).
Proof.
  intros Hfiles.
  assert (∀ data_path,
            (load_and_split_documents W (uploaded_directory W data_path files)
               (document_processor.__init__ data_path)).2
            = Raised no_valid_documents) as Hload.
  { intros data_path.
    rewrite (load_and_split_directory W (document_processor.__init__ data_path)
               (uploaded_directory W data_path files) (saved_entries W files)
               (uploaded_directory_entries W data_path files)).
    rewrite directory_chunks_nothing; [done|].
    eapply Forall_impl; [by apply saved_entries_without_txt|].
    intros entry Hentry. by left. }
  unfold process_files. step_prog.
  destruct (mkdtemp W) as [temp_dir|e0] eqn:Htemp; simpl;
    [|eexists; repeat split; intros; congruence].
  destruct (makedirs W _) as [[]|e0] eqn:Hmake; simpl;
    [|eexists; repeat split; intros; simplify_eq; congruence].
  destruct (for_each _ files) as [written|e0] eqn:Hwrite; simpl;
    [|eexists; repeat split; intros; simplify_eq; congruence].
  destruct (embeddings_manager.__init__ W "database") as [manager|e0] eqn:Hmanager;
    simpl; [|eexists; repeat split; intros; simplify_eq; congruence].
  specialize (Hload (os_path_join temp_dir "data")).
  destruct (load_and_split_documents W _ _) as [t1 result]. simpl in Hload. subst result.
  simpl. eexists. repeat split.
Qed.

(** X10: a question put to an engine that answers shows the question
    and the answer, appends exactly these two turns, in this order, to
    the chat history, and leaves the counters alone; the session holds
    the engine as the call left it. *)
Theorem answered_question_appends_two_turns (ss : session_state E) (prompt : string)
    (engine engine' : E) (response : string) :
  rag_engine ss = Some engine →
  truthy prompt = true →
  answer_question W engine prompt = (engine', Returned response) →
  run W (ChatInput prompt) ss
  = ([St (chat_message "user" prompt); St (chat_message "assistant" response)],
     {| rag_engine := Some engine';
        chat_history := chat_history ss ++ [user_turn prompt; assistant_turn response];
        doc_stats := doc_stats ss |},
     Returned ()).
Proof.
  intros Hengine Hprompt Hanswer. simpl. unfold on_chat_input. rewrite Hprompt.
  step_prog. rewrite Hengine. unfold ask. cbn -[answer_question].
  rewrite Hengine, Hanswer. simpl.
  unfold append_chat, set_chat_history, set_rag_engine, user_turn, assistant_turn. simpl.
  by rewrite <-app_assoc.
Qed.

(** X11: what one run may change.  A question never touches the
    counters and only appends to the chat history, nothing when no
    engine is set or the prompt is empty; processing documents and
    saving settings never touch the chat history, and saving settings
    never touches the counters; no run other than a successful
    processing turns a session without engine into one with an engine,
    and no run removes the engine. *)
Theorem run_frame (a : action) (ss : session_state E) :
  let ss' := (run W a ss).1.2 in
  (is_Some (rag_engine ss) → is_Some (rag_engine ss'))
  ∧ match a with
    | ChatInput prompt =>
        doc_stats ss' = doc_stats ss
        ∧ chat_history ss `prefix_of` chat_history ss'
        ∧ (rag_engine ss = None ∨ truthy prompt = false → ss' = ss)
    | ProcessDocuments files =>
        chat_history ss' = chat_history ss
        ∧ (files = [] → ss' = ss)
    | SaveSettings _ _ =>
        chat_history ss' = chat_history ss
        ∧ doc_stats ss' = doc_stats ss
        ∧ (rag_engine ss = None → ss' = ss)
    | ClearChatHistory =>
        chat_history ss' = []
        ∧ rag_engine ss' = rag_engine ss
        ∧ doc_stats ss' = doc_stats ss
    end.
Proof.
  destruct a as [prompt|files|temperature context_length|]; simpl.
  - unfold on_chat_input. destruct (truthy prompt) eqn:Hprompt.
    + step_prog. destruct (rag_engine ss) as [engine|] eqn:Hengine; simpl.
      * unfold ask. cbn -[answer_question]. rewrite Hengine.
        destruct (answer_question W engine prompt) as [engine' [response|e]]; simpl.
        -- repeat split; [by eexists| |intros [?|?]; done].
           rewrite <-app_assoc. by apply prefix_app_r.
        -- repeat split; [by eexists| |intros [?|?]; done]. by apply prefix_app_r.
      * rewrite Hengine. repeat split; [by intros []|done].
    + simpl. repeat split; done.
  - unfold on_process_documents. destruct files as [|file files]; [done|].
    step_prog.
    destruct (process_files W (file :: files) ss) as [[trace ss'] [b|e]] eqn:Hrun.
    + destruct (process_files_returned (file :: files) ss b) as (engine & documents & _ & Hss');
        [by rewrite Hrun|].
      rewrite Hrun in Hss'. simpl in Hss'. subst ss'.
      destruct b; simpl; repeat split; first [done | by eexists].
    + pose proof (process_files_raises W (file :: files) ss e) as Hss'.
      rewrite Hrun in Hss'. simpl in *. rewrite Hss' by done. repeat split; done.
  - unfold on_save_settings. step_prog.
    destruct (rag_engine ss) as [engine|] eqn:Hengine; simpl.
    + repeat split; [by eexists|done].
    + rewrite Hengine. repeat split; by intros [].
  - repeat split; done.
Qed.

End shell_more.

(** ** What holds of every session *)

Section sessions.
Context {E : Type} `{!RAGEngineClass E} (W : World).

Lemma initial_session_ok : session_ok (initial_session_state E).
Proof.
  split; [constructor|]. exists 0, 0. simpl.
  repeat split; try done; try lia; by intros [].
Qed.

Lemma user_turn_well_formed (prompt : string) : well_formed_turn (user_turn prompt).
Proof. exists prompt. by left. Qed.

Lemma assistant_turn_well_formed (response : string) :
  well_formed_turn (assistant_turn response).
Proof. exists response. by right. Qed.

(** One run keeps [session_ok]. *)
Lemma run_keeps_session_ok (a : action) (ss : session_state E) :
  session_ok ss → session_ok (run W a ss).1.2.
Proof.
  intros Hok.
  pose proof Hok as (Hhistory & processed & chunks & Hprocessed & Hchunks & Hp & Hc).
  destruct a as [prompt|files|temperature context_length|]; simpl.
  - unfold on_chat_input. destruct (truthy prompt); [|done].
    step_prog. destruct (rag_engine ss) as [engine|] eqn:Hengine; simpl; [|done].
    unfold ask. cbn -[answer_question]. rewrite Hengine.
    assert (is_Some (Some engine)) as Hsome by (by eexists).
    destruct (answer_question W engine prompt) as [engine' [response|e]]; simpl.
    + split; simpl.
      * repeat (apply Forall_app; split); try done;
          apply Forall_singleton;
          [apply user_turn_well_formed | apply assistant_turn_well_formed].
      * exists processed, chunks.
        repeat split; try done; try (by eexists); intros _; tauto.
    + split; simpl.
      * apply Forall_app. split; [done|].
        apply Forall_singleton, user_turn_well_formed.
      * exists processed, chunks.
        repeat split; try done; try (by eexists); intros _; tauto.
  - unfold on_process_documents. destruct files as [|file files]; [done|].
    step_prog.
    destruct (process_files W (file :: files) ss) as [[trace ss'] [b|e]] eqn:Hrun.
    + destruct (process_files_returned W (file :: files) ss b)
        as (engine & documents & Hdocuments & Hss'); [by rewrite Hrun|].
      rewrite Hrun in Hss'. simpl in Hss'. subst ss'.
      assert (session_ok
                {| rag_engine := Some engine;
                   chat_history := chat_history ss;
                   doc_stats := <[ "chunks" := length documents ]>
                                  (<[ "processed" := length (file :: files) ]>
                                     (doc_stats ss)) |}) as Hok'.
      { split; [done|]. exists (length (file :: files)), (length documents). simpl.
        rewrite lookup_insert_ne by done. rewrite !lookup_insert_eq.
        repeat split; try done; try (by eexists); intros _; [lia|].
        destruct documents; [done|simpl; lia]. }
      by destruct b.
    + pose proof (process_files_raises W (file :: files) ss e) as Hss'.
      rewrite Hrun in Hss'. simpl in *. by rewrite Hss'.
  - unfold on_save_settings. step_prog.
    destruct (rag_engine ss) as [engine|] eqn:Hengine; simpl; [|done].
    assert (is_Some (Some engine)) as Hsome by (by eexists).
    split; [done|]. exists processed, chunks. simpl.
    repeat split; try done; try (by eexists); intros _; tauto.
  - split; [constructor|by exists processed, chunks].
Qed.

(** Every session reached from the initial one is [session_ok]. *)
Lemma run_all_session_ok (actions : list action) :
  session_ok (run_all W actions (initial_session_state E)).
Proof.
  induction actions as [|a actions IH] using rev_ind.
  - apply initial_session_ok.
  - unfold run_all in *. rewrite foldl_snoc. by apply run_keeps_session_ok.
Qed.

(** A loop whose body leaves one effect, keeps the state and returns
    does so once per element. *)
Lemma for_in_one_effect {S A} (body : A → prog S unit) (xs : list A) (s : S) :
  Forall (λ x, ∃ e, ∀ s, body x s = ([e], s, Returned ())) xs →
  ∃ trace, for_in xs body s = (trace, s, Returned ()) ∧ length trace = length xs.
Proof.
  induction 1 as [|x xs [e Hx] _ (trace & IH & Hlength)].
  - by exists [].
  - exists (e :: trace). cbn [for_in]. unfold mbind, prog_bind.
    rewrite Hx, IH. simpl. by rewrite Hlength.
Qed.

(** The loop over well-formed turns shows each and raises nothing. *)
Lemma show_turns (history : list (gmap string string)) (ss : session_state E) :
  Forall well_formed_turn history →
  ∃ trace,
    for_in history (λ msg,
      role ← call (getitem msg "role");
      content ← call (getitem msg "content");
      emit (St (chat_message role content))) ss
    = (trace, ss, Returned ())
    ∧ length trace = length history.
Proof.
  intros Hhistory. apply for_in_one_effect.
  eapply Forall_impl; [exact Hhistory|].
  intros turn [content [->| ->]].
  - by exists (St (chat_message "user" content)).
  - by exists (St (chat_message "assistant" content)).
Qed.

(** X12: after any series of user actions from a fresh session, every
    turn of the chat history is one the chat handler wrote, a user's or
    an assistant's with its content, so the loop that displays the
    history finds both keys in every turn: it raises no KeyError, shows
    one message per turn and leaves the session alone. *)
Theorem chat_history_always_shown (actions : list action) :
  let ss := run_all W actions (initial_session_state E) in
  Forall well_formed_turn (chat_history ss)
  ∧ ∃ trace, show_chat_history ss = (trace, ss, Returned ())
             ∧ length trace = length (chat_history ss).
Proof.
  simpl. destruct (run_all_session_ok actions) as [Hhistory _].
  split; [done|].
  destruct (show_turns _ (run_all W actions (initial_session_state E)) Hhistory)
    as (trace & Hshow & Hlength).
  exists trace. split; [|done].
  unfold show_chat_history. step_prog.
  cbv beta iota zeta delta [mbind prog_bind call emit] in Hshow.
  by rewrite Hshow.
Qed.

(** X13: after any series of user actions from a fresh session, the
    sidebar finds both counters, so it raises no KeyError; it shows the
    two metrics, both positive, exactly when an engine is set, which is
    when the chat input invites a question. *)
Theorem sidebar_metrics_iff_engine (actions : list action) :
  let ss := run_all W actions (initial_session_state E) in
  ∃ processed chunks,
    doc_stats ss !! "processed" = Some processed
    ∧ doc_stats ss !! "chunks" = Some chunks
    ∧ match rag_engine ss with
      | Some _ =>
          0 < processed ∧ 0 < chunks
          ∧ sidebar_metrics ss
            = Returned [("Documents Processed", processed); ("Text Chunks", chunks)]
          ∧ chat_placeholder ss = "Ask a question..."
      | None =>
          sidebar_metrics ss = Returned []
          ∧ chat_placeholder ss = "Please upload documents first..."
      end.
Proof.
  simpl.
  destruct (run_all_session_ok actions)
    as (_ & processed & chunks & Hprocessed & Hchunks & Hp & Hc).
  exists processed, chunks. do 2 (split; [done|]).
  unfold sidebar_metrics, chat_placeholder, getitem. rewrite Hprocessed, Hchunks. simpl.
  destruct (rag_engine _) as [engine|].
  - assert (0 < processed) as Hpos by (apply Hp; by eexists).
    assert (0 < chunks) as Hpos' by (apply Hc; by eexists).
    repeat split; try done.
    destruct processed; [lia|done].
  - assert (processed = 0) as ->.
    { destruct processed; [done|]. destruct Hp as [Hp _].
      destruct Hp as [? Hp]; [lia|done]. }
    done.
Qed.

End sessions.

(** ** Directories compared *)

Section directories.
Context (W : World) (self : DocumentProcessor).

Lemma chunks_of_directory (fs : filesystem) (entries : list (string * file_read)) :
  fs (directory_path self) = Some (Directory entries) →
  chunks_of (load_and_split_documents W fs self) = directory_chunks W self entries.
Proof.
  intros Hfs. unfold chunks_of.
  rewrite (load_and_split_directory W self fs entries Hfs).
  by destruct (directory_chunks W self entries).
Qed.

(** X14: an entry that is not a [.txt] file, cannot be read or holds
    only whitespace has no influence on the result: the loader returns
    or raises the same with it in the directory as without it. *)
Theorem skipped_entry_is_irrelevant (fs fs' : filesystem)
    (before after : list (string * file_read)) (entry : string * file_read) :
  fs (directory_path self) = Some (Directory (before ++ entry :: after)) →
  fs' (directory_path self) = Some (Directory (before ++ after)) →
  yields_nothing entry →
  (load_and_split_documents W fs self).2 = (load_and_split_documents W fs' self).2.
Proof.
  intros Hfs Hfs' Hentry.
  rewrite (load_and_split_directory W self fs _ Hfs).
  rewrite (load_and_split_directory W self fs' _ Hfs').
  unfold directory_chunks. rewrite !bind_app, bind_cons.
  by rewrite (entry_chunks_nothing W self entry Hentry).
Qed.

(** X15: files do not influence one another: the chunks handed back for
    a directory listing two groups of entries are those handed back for
    the first group followed by those for the second. *)
Theorem load_concatenates (fs1 fs2 fs : filesystem)
    (entries1 entries2 : list (string * file_read)) :
  fs1 (directory_path self) = Some (Directory entries1) →
  fs2 (directory_path self) = Some (Directory entries2) →
  fs (directory_path self) = Some (Directory (entries1 ++ entries2)) →
  chunks_of (load_and_split_documents W fs self)
  = chunks_of (load_and_split_documents W fs1 self)
    ++ chunks_of (load_and_split_documents W fs2 self).
Proof.
  intros Hfs1 Hfs2 Hfs.
  rewrite (chunks_of_directory fs _ Hfs), (chunks_of_directory fs1 _ Hfs1),
    (chunks_of_directory fs2 _ Hfs2).
  unfold directory_chunks. by rewrite bind_app.
Qed.

Lemma append_assoc (a b c : string) : (a +:+ b) +:+ c = a +:+ b +:+ c.
Proof.
  induction a as [|x a IH]; [done|].
  change (String x ((a +:+ b) +:+ c) = String x (a +:+ b +:+ c)). by rewrite IH.
Qed.

Lemma os_path_join_suffix (a b p : string) :
  endswith b p = true → endswith (os_path_join a b) p = true.
Proof.
  rewrite !endswith_iff. intros [q ->]. unfold os_path_join.
  destruct (startswith _ _); [by exists q|].
  destruct (_ || _).
  - exists (a +:+ q). by rewrite append_assoc.
  - exists (a +:+ "/" +:+ q). by rewrite !append_assoc.
Qed.

(** X16: whatever the path names, every file the loader opens has a
    path ending in [.txt]. *)
Theorem opened_paths_end_in_txt (fs : filesystem) (path : string) :
  Open path ∈ (load_and_split_documents W fs self).1 →
  endswith path ".txt" = true.
Proof.
  assert (Open path ∈ (load_and_split_documents W fs self).1
          → path ∈ opened (load_and_split_documents W fs self).1) as Hopened.
  { intros Hin. unfold opened. apply list_elem_of_omap. by exists (Open path). }
  intros Hin. apply Hopened in Hin. clear Hopened.
  destruct (fs (directory_path self)) as [[entries|e0]|] eqn:Hfs.
  - rewrite (load_and_split_on_directory W fs self entries Hfs) in Hin.
    assert (path ∈ opened (for_in entries (process_entry W self) []).1.1) as Hloop.
    { destruct (directory_chunks W self entries); simpl in Hin;
        unfold opened in *; rewrite omap_app in Hin; simpl in Hin;
        by rewrite app_nil_r in Hin. }
    rewrite for_in_entries_opened in Hloop.
    apply list_elem_of_fmap in Hloop as (filename & -> & Hfilename).
    apply list_elem_of_filter in Hfilename as [Htxt _].
    apply os_path_join_suffix. by apply Is_true_true.
  - revert Hin. unfold load_and_split_documents, load_and_split_body. step_prog.
    rewrite Hfs. simpl. by intros ?%elem_of_nil.
  - revert Hin. unfold load_and_split_documents, load_and_split_body. step_prog.
    rewrite Hfs. simpl. by intros ?%elem_of_nil.
Qed.

End directories.

(** ** The properties at work *)

Lemma load_failure_cases_witness :
  (load_and_split_documents worlds.answering mixed_directory
     (document_processor.__init__ "nowhere")).2
  = Raised (directory_not_found "nowhere")
  ∧ last (load_and_split_documents worlds.answering mixed_directory
            (document_processor.__init__ "nowhere")).1
    = Some (Log ERROR "Error in load_and_split_documents: Directory not found: nowhere").
Proof.
  split; [reflexivity|].
  apply (load_failure_cases worlds.answering mixed_directory
           (document_processor.__init__ "nowhere") (directory_not_found "nowhere")).
  reflexivity.
Defined.

Lemma loaded_chunk_provenance_witness :
  mixed_directory (directory_path (document_processor.__init__ "data"))
  = Some (Directory
            [("good.txt", ReadOk "AI is great. ML is a subset of AI.");
             ("bad.txt", ReadFails (Exception "UnicodeDecodeError" "invalid start byte"));
             ("blank.txt", ReadOk "  ");
             ("paper.pdf", ReadOk "%PDF-1.7")])
  ∧ (load_and_split_documents worlds.answering mixed_directory
       (document_processor.__init__ "data")).2
    = Returned [worlds.chunk "good.txt" "AI is great. ML is a subset of AI."]
  ∧ worlds.chunk "good.txt" "AI is great. ML is a subset of AI."
    ∈ [worlds.chunk "good.txt" "AI is great. ML is a subset of AI."]
  ∧ ∃ stem text split_docs,
      (stem +:+ ".txt", ReadOk text)
      ∈ [("good.txt", ReadOk "AI is great. ML is a subset of AI.");
         ("bad.txt", ReadFails (Exception "UnicodeDecodeError" "invalid start byte"));
         ("blank.txt", ReadOk "  ");
         ("paper.pdf", ReadOk "%PDF-1.7")]
      ∧ all_space text = false
      ∧ split_documents worlds.answering
          (text_splitter (document_processor.__init__ "data"))
          [{| page_content := text; metadata := {[ "source" := stem +:+ ".txt" ]} |}]
        = Returned split_docs
      ∧ worlds.chunk "good.txt" "AI is great. ML is a subset of AI." ∈ split_docs.
Proof.
  split; [reflexivity|]. split; [reflexivity|]. split; [apply list_elem_of_here|].
  apply (loaded_chunk_provenance worlds.answering mixed_directory
           (document_processor.__init__ "data") _ _ _ eq_refl eq_refl).
  apply list_elem_of_here.
Defined.

Lemma opened_files_are_txt_witness :
  mixed_directory (directory_path (document_processor.__init__ "data"))
  = Some (Directory
            [("good.txt", ReadOk "AI is great. ML is a subset of AI.");
             ("bad.txt", ReadFails (Exception "UnicodeDecodeError" "invalid start byte"));
             ("blank.txt", ReadOk "  ");
             ("paper.pdf", ReadOk "%PDF-1.7")])
  ∧ opened (load_and_split_documents worlds.answering mixed_directory
              (document_processor.__init__ "data")).1
    = ["data/good.txt"; "data/bad.txt"; "data/blank.txt"].
Proof.
  split; [reflexivity|].
  rewrite (opened_files_are_txt worlds.answering mixed_directory
             (document_processor.__init__ "data") _ eq_refl).
  reflexivity.
Defined.

Lemma text_file_processing_witness :
  endswith "blank.txt" ".txt" = true
  ∧ process_entry worlds.answering (document_processor.__init__ "data")
      ("blank.txt", ReadOk "  ") []
    = ([Log INFO "Processing file: data/blank.txt";
        Open "data/blank.txt";
        Log WARNING "Empty file: data/blank.txt"],
       [], Returned ()).
Proof.
  split; [reflexivity|].
  rewrite (text_file_processing worlds.answering (document_processor.__init__ "data")
             "blank.txt" "  " [] eq_refl).
  reflexivity.
Defined.

Lemma load_success_counted_witness :
  (load_and_split_documents worlds.answering mixed_directory
     (document_processor.__init__ "data")).2
  = Returned [worlds.chunk "good.txt" "AI is great. ML is a subset of AI."]
  ∧ [worlds.chunk "good.txt" "AI is great. ML is a subset of AI."] ≠ []
  ∧ last (load_and_split_documents worlds.answering mixed_directory
            (document_processor.__init__ "data")).1
    = Some (Log INFO "Successfully processed 1 document chunks").
Proof.
  split; [reflexivity|].
  apply (load_success_counted worlds.answering mixed_directory
           (document_processor.__init__ "data")).
  reflexivity.
Defined.

Lemma process_files_success_witness :
  (process_files worlds.answering [worlds.notes]
     (initial_session_state rag_engine.RAGEngine)).2
  = Returned true
  ∧ true = true
  ∧ ∃ temp_dir written documents store engine,
      mkdtemp worlds.answering = Returned temp_dir
      ∧ makedirs worlds.answering (os_path_join temp_dir "data") = Returned ()
      ∧ for_each (λ f, write_file worlds.answering
                         (os_path_join (os_path_join temp_dir "data") (name f))
                         (getvalue f)) [worlds.notes]
        = Returned written
      ∧ embeddings_manager.__init__ worlds.answering "database"
        = Returned database_manager
      ∧ (load_and_split_documents worlds.answering
           (uploaded_directory worlds.answering (os_path_join temp_dir "data")
              [worlds.notes])
           (document_processor.__init__ (os_path_join temp_dir "data"))).2
        = Returned documents
      ∧ from_documents worlds.answering documents
          {| model_name := "all-MiniLM-L6-v2"; cache_folder := "database/models" |}
          "database"
        = Returned store
      ∧ RAGEngine_init worlds.answering store = Returned engine
      ∧ (process_files worlds.answering [worlds.notes]
           (initial_session_state rag_engine.RAGEngine)).1.2
        = {| rag_engine := Some engine;
             chat_history := chat_history (initial_session_state rag_engine.RAGEngine);
             doc_stats := <[ "chunks" := length documents ]>
                            (<[ "processed" := length [worlds.notes] ]>
                               (doc_stats (initial_session_state rag_engine.RAGEngine))) |}.
Proof.
  split; [vm_compute; reflexivity|].
  apply (process_files_success worlds.answering [worlds.notes]
           (initial_session_state rag_engine.RAGEngine) true).
  vm_compute. reflexivity.
Defined.

(** An upload of another format only. *)
Lemma uploads_without_txt_fail_witness :
  Forall (λ f, endswith (name f) ".txt" = false)
    [{| name := "paper.pdf"; getvalue := "%PDF-1.7" |}]
  ∧ ∃ e,
      (process_files worlds.answering [{| name := "paper.pdf"; getvalue := "%PDF-1.7" |}]
         indexed_session).2
      = Raised e
      ∧ (process_files worlds.answering [{| name := "paper.pdf"; getvalue := "%PDF-1.7" |}]
           indexed_session).1.2
        = indexed_session
      ∧ (∀ temp_dir written manager,
           mkdtemp worlds.answering = Returned temp_dir →
           makedirs worlds.answering (os_path_join temp_dir "data") = Returned () →
           for_each (λ f, write_file worlds.answering
                            (os_path_join (os_path_join temp_dir "data") (name f))
                            (getvalue f))
             [{| name := "paper.pdf"; getvalue := "%PDF-1.7" |}]
           = Returned written →
           embeddings_manager.__init__ worlds.answering "database" = Returned manager →
           e = no_valid_documents).
Proof.
  split; [repeat constructor|].
  apply (uploads_without_txt_fail worlds.answering
           [{| name := "paper.pdf"; getvalue := "%PDF-1.7" |}] indexed_session).
  repeat constructor.
Defined.

Lemma answered_question_appends_two_turns_witness :
  rag_engine indexed_session = Some (rag_engine.__init__ two_chunk_store)
  ∧ truthy "What is ML?" = true
  ∧ answer_question worlds.answering (rag_engine.__init__ two_chunk_store) "What is ML?"
    = (rag_engine.__init__ two_chunk_store, Returned "AI is great. ML What is ML?")
  ∧ run worlds.answering (ChatInput "What is ML?") indexed_session
    = ([St (chat_message "user" "What is ML?");
        St (chat_message "assistant" "AI is great. ML What is ML?")],
       {| rag_engine := Some (rag_engine.__init__ two_chunk_store);
          chat_history := chat_history indexed_session
                          ++ [user_turn "What is ML?";
                              assistant_turn "AI is great. ML What is ML?"];
          doc_stats := doc_stats indexed_session |},
       Returned ()).
Proof.
  do 3 (split; [vm_compute; reflexivity|]).
  apply (answered_question_appends_two_turns worlds.answering indexed_session
           "What is ML?" (rag_engine.__init__ two_chunk_store)
           (rag_engine.__init__ two_chunk_store) "AI is great. ML What is ML?");
    vm_compute; reflexivity.
Defined.

Lemma skipped_entry_is_irrelevant_witness :
  mixed_directory (directory_path (document_processor.__init__ "data"))
  = Some (Directory
            ([("good.txt", ReadOk "AI is great. ML is a subset of AI.");
              ("bad.txt", ReadFails (Exception "UnicodeDecodeError" "invalid start byte"));
              ("blank.txt", ReadOk "  ")]
             ++ ("paper.pdf", ReadOk "%PDF-1.7") :: []))
  ∧ yields_nothing ("paper.pdf", ReadOk "%PDF-1.7")
  ∧ (load_and_split_documents worlds.answering mixed_directory
       (document_processor.__init__ "data")).2
    = (load_and_split_documents worlds.answering
         (λ _, Some (Directory
            ([("good.txt", ReadOk "AI is great. ML is a subset of AI.");
              ("bad.txt", ReadFails (Exception "UnicodeDecodeError" "invalid start byte"));
              ("blank.txt", ReadOk "  ")] ++ [])))
         (document_processor.__init__ "data")).2.
Proof.
  split; [reflexivity|]. split; [by left|].
  apply (skipped_entry_is_irrelevant worlds.answering
           (document_processor.__init__ "data") mixed_directory _
           [("good.txt", ReadOk "AI is great. ML is a subset of AI.");
            ("bad.txt", ReadFails (Exception "UnicodeDecodeError" "invalid start byte"));
            ("blank.txt", ReadOk "  ")]
           [] ("paper.pdf", ReadOk "%PDF-1.7") eq_refl eq_refl).
  by left.
Defined.

Lemma load_concatenates_witness :
  chunks_of (load_and_split_documents worlds.answering
               (λ _, Some (Directory ([("a.txt", ReadOk "one")]
                                      ++ [("b.md", ReadOk "two"); ("c.txt", ReadOk "three")])))
               (document_processor.__init__ "data"))
  = chunks_of (load_and_split_documents worlds.answering
                 (λ _, Some (Directory [("a.txt", ReadOk "one")]))
                 (document_processor.__init__ "data"))
    ++ chunks_of (load_and_split_documents worlds.answering
                    (λ _, Some (Directory [("b.md", ReadOk "two");
                                           ("c.txt", ReadOk "three")]))
                    (document_processor.__init__ "data")).
Proof.
  apply (load_concatenates worlds.answering (document_processor.__init__ "data")
           _ _ _ [("a.txt", ReadOk "one")]
           [("b.md", ReadOk "two"); ("c.txt", ReadOk "three")]);
    reflexivity.
Defined.

Lemma opened_paths_end_in_txt_witness :
  Open "data/bad.txt"
  ∈ (load_and_split_documents worlds.answering mixed_directory
       (document_processor.__init__ "data")).1
  ∧ endswith "data/bad.txt" ".txt" = true.
Proof.
  assert (Open "data/bad.txt"
          ∈ (load_and_split_documents worlds.answering mixed_directory
               (document_processor.__init__ "data")).1) as Hin.
  { vm_compute. do 4 apply list_elem_of_further. apply list_elem_of_here. }
  split; [exact Hin|].
  exact (opened_paths_end_in_txt worlds.answering (document_processor.__init__ "data")
           mixed_directory "data/bad.txt" Hin).
Defined.
